(** * asynckeybow: key states, scripted event source, timeline and
      sequence classifier

    A shallow embedding of [asynckeybow/asynckeybow.py].

    Conventions of the embedding.
    - Python values that reach the code under study are drawn from [PyVal]:
      [None], booleans, integers, floats, strings and the built-in class
      objects.  Python integers are unbounded, hence [Z].
    - A Python float is a [pyfloat]: an exact rational, an infinity or NaN.
      Arithmetic on finite floats is carried out exactly in [Q]; binary
      rounding is not modelled.
    - A Python [str] is a [string] whose characters are the code points
      below 256.
    - A raised exception is the [Raise] case of [result]; statements are
      sequenced with stdpp's monadic notation [x ← e; k].
    - [dict] is [gmap]; the [deque] of the listener is a list whose head is
      the left end. *)

From Stdlib Require Import ZArith QArith Qround String Ascii List Lia.
From Stdlib Require Import HexadecimalString.
From stdpp Require Import base option list gmap strings.
From stdpp Require Import sorting.

Open Scope Z_scope.

(** ** Exceptions and results *)

Inductive Exn : Type :=
  | IndexError
  | ValueError
  | TypeError
  | KeyError
  | RecursionError
  | OverflowError
  | KeyStateError
  | LEDInterfaceError.

Inductive result (A : Type) : Type :=
  | Ok (a : A)
  | Raise (e : Exn).

Arguments Ok {A} a.
Arguments Raise {A} e.

#[global] Instance result_ret : MRet result := fun A a => Ok a.
#[global] Instance result_bind : MBind result := fun A B f m =>
  match m with
  | Ok a => f a
  | Raise e => Raise e
  end.

#[global] Instance result_fmap : FMap result := fun A B f m =>
  match m with
  | Ok a => Ok (f a)
  | Raise e => Raise e
  end.

(** ** Python values *)

Inductive pyfloat : Type :=
  | Fin (q : Q)
  | PosInf
  | NegInf
  | NaN.

Inductive PyType : Type :=
  | TObject | TType | TNoneType | TBool | TInt | TFloat | TStr.

Inductive PyVal : Type :=
  | PyNone
  | PyBool (b : bool)
  | PyInt (z : Z)
  | PyFloat (f : pyfloat)
  | PyStr (s : string)
  | PyClass (t : PyType).

Definition PyType_eqb (a b : PyType) : bool :=
  match a, b with
  | TObject, TObject | TType, TType | TNoneType, TNoneType
  | TBool, TBool | TInt, TInt | TFloat, TFloat | TStr, TStr => true
  | _, _ => false
  end.

(** [type(v)]. *)
Definition py_type (v : PyVal) : PyType :=
  match v with
  | PyNone => TNoneType
  | PyBool _ => TBool
  | PyInt _ => TInt
  | PyFloat _ => TFloat
  | PyStr _ => TStr
  | PyClass _ => TType
  end.

(** [issubclass(a, b)] on the built-in classes: every class derives from
    [object], and [bool] derives from [int]. *)
Definition py_issubclass (a b : PyType) : bool :=
  match b with
  | TObject => true
  | TInt => match a with TInt | TBool => true | _ => false end
  | _ => PyType_eqb a b
  end.

(** [isinstance(obj, cls)]: the second argument has to be a class. *)
Definition py_isinstance (obj cls : PyVal) : result bool :=
  match cls with
  | PyClass t => Ok (py_issubclass (py_type obj) t)
  | _ => Raise TypeError
  end.

(** The numeric value of a number ([bool] is a subclass of [int]). *)
Definition py_number (v : PyVal) : option pyfloat :=
  match v with
  | PyBool b => Some (Fin (inject_Z (if b then 1 else 0)))
  | PyInt z => Some (Fin (inject_Z z))
  | PyFloat f => Some f
  | _ => None
  end.

Definition Qltb (a b : Q) : bool := negb (Qle_bool b a).

Definition pyfloat_eqb (a b : pyfloat) : bool :=
  match a, b with
  | Fin p, Fin q => Qeq_bool p q
  | PosInf, PosInf | NegInf, NegInf => true
  | _, _ => false
  end.

Definition pyfloat_ltb (a b : pyfloat) : bool :=
  match a, b with
  | NaN, _ | _, NaN => false
  | Fin p, Fin q => Qltb p q
  | NegInf, (Fin _ | PosInf) => true
  | Fin _, PosInf => true
  | _, _ => false
  end.

(** [a == b]. *)
Definition py_eq (a b : PyVal) : bool :=
  match py_number a, py_number b with
  | Some x, Some y => pyfloat_eqb x y
  | _, _ =>
      match a, b with
      | PyNone, PyNone => true
      | PyStr s, PyStr t => String.eqb s t
      | PyClass s, PyClass t => PyType_eqb s t
      | _, _ => false
      end
  end.

(** [x in seq] for a tuple or list [seq]. *)
Definition py_in (x : PyVal) (seq : list PyVal) : bool :=
  existsb (py_eq x) seq.

(** [a < n] and [a > n] for an integer [n]: ordering is defined between
    numbers only. *)
Definition py_lt_int (a : PyVal) (n : Z) : result bool :=
  match py_number a with
  | Some x => Ok (pyfloat_ltb x (Fin (inject_Z n)))
  | None => Raise TypeError
  end.

Definition py_gt_int (a : PyVal) (n : Z) : result bool :=
  match py_number a with
  | Some x => Ok (pyfloat_ltb (Fin (inject_Z n)) x)
  | None => Raise TypeError
  end.

(** Truth value of an object. *)
Definition py_truthy (v : PyVal) : bool :=
  match v with
  | PyNone => false
  | PyBool b => b
  | PyInt z => negb (z =? 0)
  | PyFloat f => negb (pyfloat_eqb f (Fin 0))
  | PyStr s => negb (String.eqb s "")
  | PyClass _ => true
  end.

(** [int(x)] of a finite float truncates towards zero. *)
Definition Qtrunc (q : Q) : Z := Z.quot (Qnum q) (Zpos (Qden q)).

Definition Q_is_integer (q : Q) : bool := Qeq_bool q (inject_Z (Qfloor q)).

(** ** String formatting and splitting *)

(** [format(z, 'x')]: lowercase hexadecimal digits of [|z|]. *)
Definition hex_digits (z : Z) : string :=
  NilZero.string_of_uint (N.to_hex_uint (Z.abs_N z)).

Fixpoint zero_fill (n : nat) (s : string) : string :=
  match n with
  | O => s
  | S n' => String "0" (zero_fill n' s)
  end.

(** [format(z, '02x')]: sign-aware zero padding to a minimum width of two
    characters. *)
Definition format_02x (z : Z) : string :=
  let digits := hex_digits z in
  if z <? 0
  then String "-" (zero_fill (1 - String.length digits) digits)
  else zero_fill (2 - String.length digits) digits.

(** Characters with [str.isspace()] among the code points below 256. *)
Definition is_space (c : ascii) : bool :=
  let n := nat_of_ascii c in
  ((9 <=? n) && (n <=? 13) || (28 <=? n) && (n <=? 32)
   || (n =? 133) || (n =? 160))%nat.

Definition rev_string (s : string) : string :=
  string_of_list_ascii (rev (list_ascii_of_string s)).

(** [s.split()]: maximal runs of non-whitespace characters.  [cur] holds
    the current run, last character first. *)
Fixpoint split_from (s : string) (cur : string) : list string :=
  match s with
  | EmptyString =>
      match cur with EmptyString => [] | _ => [rev_string cur] end
  | String c rest =>
      if is_space c
      then match cur with
           | EmptyString => split_from rest EmptyString
           | _ => rev_string cur :: split_from rest EmptyString
           end
      else split_from rest (String c cur)
  end.

Definition py_split (s : string) : list string := split_from s EmptyString.

(** ** KeyState *)

Record KeyState : Type := mkKeyState {
  ks_pressed : PyVal;   (* _pressed *)
  ks_r : Z;             (* _r *)
  ks_g : Z;             (* _g *)
  ks_b : Z              (* _b *)
}.

(** [KeyState.__init__] *)
Definition KeyState_init : KeyState :=
  {| ks_pressed := PyBool false; ks_r := 0; ks_g := 0; ks_b := 0 |}.

Module KeyStateOps.

(** Property [pressed]. *)
Definition pressed (self : KeyState) : PyVal := ks_pressed self.

(** Setter of [pressed]. *)
Definition set_pressed (self : KeyState) (var : PyVal) : result KeyState :=
  if negb (py_in var [PyBool true; PyBool false])
  then Raise KeyStateError
  else Ok {| ks_pressed := var; ks_r := ks_r self;
             ks_g := ks_g self; ks_b := ks_b self |}.

Definition r (self : KeyState) : Z := ks_r self.
Definition g (self : KeyState) : Z := ks_g self.
Definition b (self : KeyState) : Z := ks_b self.

(** Property [colourcode]. *)
Definition colourcode (self : KeyState) : string :=
  (format_02x (r self) ++ format_02x (g self) ++ format_02x (b self))%string.

(** [is_lit]: the chained comparison [r == g == b == 0] is
    [r == g and g == b and b == 0]. *)
Definition is_lit (self : KeyState) : bool :=
  if (r self =? g self) && (g self =? b self) && (b self =? 0)
  then false
  else true.

End KeyStateOps.

(** ** LEDCommand *)

Inductive LEDOperation : Type := OFF | ON | BLINK.

Record LEDCommand : Type := mkLEDCommand {
  lc_key_idx : PyVal;        (* _key_idx *)
  lc_op : LEDOperation;      (* _op *)
  lc_r : PyVal;              (* _r *)
  lc_g : PyVal;              (* _g *)
  lc_b : PyVal;              (* _b *)
  lc_blink_count : PyVal     (* _blink_count *)
}.

(** [a or b] evaluates [b] only when [a] is false. *)
Definition py_or (a : result bool) (b : result bool) : result bool :=
  x ← a; if (x : bool) then Ok true else b.

Module LEDCommandOps.

(** [LEDCommand.__init__]: the arguments are stored as they come. *)
Definition init (key_idx : PyVal) (op : LEDOperation) (r g b : PyVal)
    (blink_count : PyVal) : LEDCommand :=
  mkLEDCommand key_idx op r g b blink_count.

Definition r (self : LEDCommand) : PyVal := lc_r self.
Definition g (self : LEDCommand) : PyVal := lc_g self.
Definition b (self : LEDCommand) : PyVal := lc_b self.

(** The condition shared by the three colour setters,
    [not isinstance(int, val) or val < 0 or val > 255], with the
    arguments of [isinstance] in the order of the source. *)
Definition rejects (val : PyVal) : result bool :=
  py_or (negb <$> py_isinstance (PyClass TInt) val)
        (py_or (py_lt_int val 0) (py_gt_int val 255)).

(** The assignments that follow the guard in the setters of [r], [g] and
    [b]: each of them writes [_r]. *)
Definition assign_after_r (self : LEDCommand) (val : PyVal) : LEDCommand :=
  mkLEDCommand (lc_key_idx self) (lc_op self) val (lc_g self) (lc_b self)
               (lc_blink_count self).
Definition assign_after_g (self : LEDCommand) (val : PyVal) : LEDCommand :=
  mkLEDCommand (lc_key_idx self) (lc_op self) val (lc_g self) (lc_b self)
               (lc_blink_count self).
Definition assign_after_b (self : LEDCommand) (val : PyVal) : LEDCommand :=
  mkLEDCommand (lc_key_idx self) (lc_op self) val (lc_g self) (lc_b self)
               (lc_blink_count self).

Definition set_r (self : LEDCommand) (val : PyVal) : result LEDCommand :=
  bad ← rejects val;
  if (bad : bool) then Raise LEDInterfaceError
  else Ok (assign_after_r self val).

Definition set_g (self : LEDCommand) (val : PyVal) : result LEDCommand :=
  bad ← rejects val;
  if (bad : bool) then Raise LEDInterfaceError
  else Ok (assign_after_g self val).

Definition set_b (self : LEDCommand) (val : PyVal) : result LEDCommand :=
  bad ← rejects val;
  if (bad : bool) then Raise LEDInterfaceError
  else Ok (assign_after_b self val).

End LEDCommandOps.

(** ** KeyInterface *)

Inductive Implementation : Type := KEYBOW | SIMULATED | DUMMY.

(** A raw transition [(key_index, state)].  The scripted source produces
    the index as the float it parsed; the hardware source produces the
    integer index of the driver, which embeds as [Fin (inject_Z i)]. *)
Definition keypress : Type := pyfloat * PyVal.

Record KeyInterface : Type := mkKeyInterface {
  ki_impl : Implementation;            (* _impl *)
  ki_state : gmap Z KeyState;          (* _state *)
  ki_last_press : option keypress;     (* _last_press *)
  ki_script : list string;             (* _script *)
  ki_script_position : nat             (* _script_position *)
}.

(** [KeyInterface.__init__] for an implementation whose driver module, if
    it needs one, could be imported. *)
Definition KeyInterface_init (impl : Implementation) : KeyInterface :=
  mkKeyInterface impl ∅ None [] 0.

(** The registry filled by [setup]: [KeyState()] for each [k] in
    [range(keycount)]. *)
Fixpoint fresh_states (keycount : nat) : gmap Z KeyState :=
  match keycount with
  | O => ∅
  | S n => <[Z.of_nat n := KeyState_init]> (fresh_states n)
  end.

(** [setup] for the implementations without a driver: an empty script is
    falsy and leaves [_script] as it is. *)
Definition setup (self : KeyInterface) (keycount : nat)
    (script : list string) : KeyInterface :=
  mkKeyInterface (ki_impl self)
    (fresh_states keycount ∪ ki_state self)
    (ki_last_press self)
    (match script with [] => ki_script self | _ => script end)
    (ki_script_position self).

(** The integer key of [_state] that a float index hashes and compares
    equal to, if any. *)
Definition dict_key (idx : pyfloat) : option Z :=
  match idx with
  | Fin q => if Q_is_integer q then Some (Qfloor q) else None
  | _ => None
  end.

(** [key_update] *)
Definition key_update (self : KeyInterface) (idx : pyfloat) (state : PyVal)
    : result KeyInterface :=
  match dict_key idx with
  | None => Raise KeyError
  | Some k =>
      match ki_state self !! k with
      | None => Raise KeyError
      | Some ks =>
          ks' ← KeyStateOps.set_pressed ks state;
          Ok (mkKeyInterface (ki_impl self) (<[k := ks']> (ki_state self))
                (Some (idx, state)) (ki_script self)
                (ki_script_position self))
      end
  end.

(** How an [await asyncio.sleep(delay)] ends: a delay that is not positive
    or is finite completes, an infinite one never does.  A NaN delay is
    refused with [ValueError], as CPython 3.13 does; earlier versions let
    that sleep complete at once. *)
Inductive SleepEnd : Type := Wakes | NeverWakes | SleepRaises (e : Exn).

Definition asyncio_sleep (delay : pyfloat) : SleepEnd :=
  match delay with
  | Fin _ | NegInf => Wakes
  | PosInf => NeverWakes
  | NaN => SleepRaises ValueError
  end.

(** What the caller of [async_wait] observes. *)
Inductive Outcome : Type :=
  | Returned (kp : option keypress)   (* [None] is Python's [None] *)
  | Raised (e : Exn)
  | Suspended                         (* an awaited sleep never completes *)
  | Polling.                          (* hardware mailbox empty: the loop
                                         sleeps 1/120 s and looks again *)

Record Waited : Type := mkWaited {
  w_slept : list pyfloat;    (* delays passed to asyncio.sleep, in order *)
  w_self : KeyInterface;     (* the interface afterwards *)
  w_outcome : Outcome
}.

Definition with_position (self : KeyInterface) (pos : nat) : KeyInterface :=
  mkKeyInterface (ki_impl self) (ki_state self) (ki_last_press self)
    (ki_script self) pos.

Definition clear_last_press (self : KeyInterface) : KeyInterface :=
  mkKeyInterface (ki_impl self) (ki_state self) None
    (ki_script self) (ki_script_position self).

Section Environment.

(** [float(s)] of the interpreter: [None] when it raises [ValueError]. *)
Variable py_float : string → option pyfloat.

(** [time_time n] is the reading returned by the [n]-th call of
    [time.time()]. *)
Variable time_time : nat → Q.

(** [async_wait].  The scripted branch calls itself after each [sleep]
    line; [depth] is the number of nested calls the interpreter still
    allows before it raises [RecursionError].  In the hardware branch the
    mailbox is filled by the driver's callbacks, which are outside this
    model: an empty mailbox is reported as [Polling]. *)
Fixpoint async_wait (depth : nat) (self : KeyInterface) : Waited :=
  match depth with
  | O => mkWaited [] self (Raised RecursionError)
  | S depth' =>
      match ki_impl self with
      | KEYBOW =>
          match ki_last_press self with
          | Some last =>
              mkWaited [] (clear_last_press self) (Returned (Some last))
          | None => mkWaited [Fin (1 # 120)] self Polling
          end
      | SIMULATED =>
          let slept :=
            if (length (ki_script self) <=? ki_script_position self)%nat
            then [Fin 99999999] else [] in
          match ki_script self !! ki_script_position self with
          | None => mkWaited slept self (Raised IndexError)
          | Some cmd =>
              let self1 :=
                with_position self (S (ki_script_position self)) in
              match py_split cmd with
              | [op; arg] =>
                  match py_float arg with
                  | None => mkWaited slept self1 (Raised ValueError)
                  | Some arg =>
                      if String.eqb op "sleep" then
                        match asyncio_sleep arg with
                        | Wakes =>
                            let w := async_wait depth' self1 in
                            mkWaited (slept ++ arg :: w_slept w)
                              (w_self w) (w_outcome w)
                        | NeverWakes =>
                            mkWaited (slept ++ [arg]) self1 Suspended
                        | SleepRaises e => mkWaited slept self1 (Raised e)
                        end
                      else if String.eqb op "down" then
                        match key_update self1 arg (PyBool true) with
                        | Ok self2 =>
                            mkWaited slept self2
                              (Returned (Some (arg, PyBool true)))
                        | Raise e => mkWaited slept self1 (Raised e)
                        end
                      else if String.eqb op "up" then
                        match key_update self1 arg (PyBool false) with
                        | Ok self2 =>
                            mkWaited slept self2
                              (Returned (Some (arg, PyBool false)))
                        | Raise e => mkWaited slept self1 (Raised e)
                        end
                      else mkWaited slept self1 (Returned None)
                  end
              | _ => mkWaited slept self1 (Raised ValueError)
              end
          end
      | DUMMY => mkWaited [] self (Returned None)
      end
  end.

(** ** KeySequenceListener *)

Inductive KeySequence : Type := SINGLE | HOLD | DOUBLE.

Definition KeySequence_eqb (a b : KeySequence) : bool :=
  match a, b with
  | SINGLE, SINGLE | HOLD, HOLD | DOUBLE, DOUBLE => true
  | _, _ => false
  end.

(** [seq in listen_for] *)
Definition listens_for (listen_for : list KeySequence) (seq : KeySequence)
    : bool :=
  existsb (KeySequence_eqb seq) listen_for.

(** An event of the timeline, [(timestamp, keypress)]. *)
Definition TimelineEntry : Type := Q * keypress.

Definition entry_time (e : TimelineEntry) : Q := fst e.
Definition entry_key (e : TimelineEntry) : pyfloat := fst (snd e).
Definition entry_pressed (e : TimelineEntry) : PyVal := snd (snd e).

(** The slots of the timeline [deque]; a slot that was never written
    holds [None]. *)
Definition Timeline : Type := list (option TimelineEntry).

Definition tl_maxlen : nat := 50.

(** [deque([None for x in range(50)], 50)] *)
Definition tl_init : Timeline := replicate 50 None.

(** [d.appendleft(x)] on a deque bounded by [maxlen]: what no longer fits
    falls off the right end. *)
Definition deque_appendleft {A} (maxlen : nat) (x : A) (d : list A)
    : list A :=
  take maxlen (x :: d).

Definition tl_appendleft (e : TimelineEntry) (tl : Timeline) : Timeline :=
  deque_appendleft tl_maxlen (Some e) tl.

(** What is put on the queue: the empty list [[]], or a pair
    [(key_index, sequence)]. *)
Inductive Published : Type :=
  | NoSequence
  | Sequence (key_index : Z) (seq : KeySequence).

Record KeySequenceListener : Type := mkListener {
  l_listen_for : list KeySequence;    (* _listen_for *)
  l_ki : KeyInterface;                (* _ki *)
  l_tl : Timeline                     (* _tl *)
}.

(** [KeySequenceListener.__init__] *)
Definition KeySequenceListener_init (interface : KeyInterface)
    (listen_for : list KeySequence) : KeySequenceListener :=
  mkListener listen_for interface tl_init.

(** [[kp for kp in list(self._tl) if kp and kp[1][0] == key]] *)
Definition key_history (tl : Timeline) (key : pyfloat) : Timeline :=
  List.filter
    (fun kp => match kp with
               | Some e => pyfloat_eqb (entry_key e) key
               | None => false
               end)
    tl.

(** [int(x)] of a float. *)
Definition int_of_float (x : pyfloat) : result Z :=
  match x with
  | Fin q => Ok (Qtrunc q)
  | PosInf | NegInf => Raise OverflowError
  | NaN => Raise ValueError
  end.

(** [(now - last_action[0]) * 1000] *)
Definition press_duration (now : Q) (last_action : TimelineEntry) : Q :=
  ((now - entry_time last_action) * 1000)%Q.

(** The two branches under [if last_action:]. *)
Definition classify (listen_for : list KeySequence) (key : pyfloat)
    (duration : Q) : result Published :=
  if Qltb 500 duration && listens_for listen_for HOLD
  then k ← int_of_float key; Ok (Sequence k HOLD)
  else k ← int_of_float key; Ok (Sequence k SINGLE).

(** One turn of the loop of [produce] once [async_wait] has returned
    [keypress]: the value put on the queue, the timeline afterwards and
    the number of clock readings taken so far. *)
Definition produce_step (listen_for : list KeySequence) (tl : Timeline)
    (reads : nat) (keypress : option keypress)
    : result (Published * Timeline * nat) :=
  match keypress with
  | None => Raise TypeError
  | Some kp =>
      '(res, reads1) ←
        (if negb (py_truthy (snd kp)) then
           match key_history tl (fst kp) with
           | [] => Raise IndexError
           | last_action :: _ =>
               match last_action with
               | Some e =>
                   res ← classify listen_for (fst kp)
                          (press_duration (time_time reads) e);
                   Ok (res, S reads)
               | None => Ok (NoSequence, reads)
               end
           end
         else Ok (NoSequence, reads));
      Ok (res, tl_appendleft (time_time reads1, kp) tl, S reads1)
  end.

(** The producer task: listener, queue contents and clock readings. *)
Record Producer : Type := mkProducer {
  p_listener : KeySequenceListener;
  p_queue : list Published;
  p_reads : nat
}.

Inductive LoopStatus : Type :=
  | Running                 (* still looping *)
  | Stopped (e : Exn)       (* the task ended with an exception *)
  | Waiting (o : Outcome).  (* the task is parked in [async_wait] *)

Definition set_interface (p : Producer) (ki : KeyInterface) : Producer :=
  mkProducer
    (mkListener (l_listen_for (p_listener p)) ki (l_tl (p_listener p)))
    (p_queue p) (p_reads p).

(** [produce], unrolled for at most [turns] turns of its [while True]. *)
Fixpoint produce (depth : nat) (turns : nat) (p : Producer)
    : Producer * LoopStatus :=
  match turns with
  | O => (p, Running)
  | S turns' =>
      let w := async_wait depth (l_ki (p_listener p)) in
      let p1 := set_interface p (w_self w) in
      match w_outcome w with
      | Returned keypress =>
          match produce_step (l_listen_for (p_listener p1))
                  (l_tl (p_listener p1)) (p_reads p1) keypress with
          | Ok (res, tl', reads') =>
              produce depth turns'
                (mkProducer
                   (mkListener (l_listen_for (p_listener p1))
                      (l_ki (p_listener p1)) tl')
                   (p_queue p1 ++ [res]) reads')
          | Raise e => (p1, Stopped e)
          end
      | Raised e => (p1, Stopped e)
      | o => (p1, Waiting o)
      end
  end.

End Environment.

(** ** Reference definitions

    The definitions of this part follow the wording of the specification;
    the theorems compare them with the code above. *)

Definition hex_char (d : Z) : ascii :=
  match d with
  | 0 => "0" | 1 => "1" | 2 => "2" | 3 => "3" | 4 => "4" | 5 => "5"
  | 6 => "6" | 7 => "7" | 8 => "8" | 9 => "9" | 10 => "a" | 11 => "b"
  | 12 => "c" | 13 => "d" | 14 => "e" | _ => "f"
  end%char.

(** Two lowercase hexadecimal digits, zero-padded. *)
Definition hex_byte (z : Z) : string :=
  String (hex_char (z / 16)) (String (hex_char (z mod 16)) EmptyString).

Definition entry_matches (key : pyfloat) (kp : option TimelineEntry) : bool :=
  match kp with
  | Some e => pyfloat_eqb (entry_key e) key
  | None => false
  end.

(** The most recent entry of the timeline for [key]: the first match from
    the left end. *)
Fixpoint most_recent_entry (tl : Timeline) (key : pyfloat)
    : option TimelineEntry :=
  match tl with
  | [] => None
  | kp :: older =>
      if entry_matches key kp then kp else most_recent_entry older key
  end.

(** The most recent entry for [key] whose pressed flag is true. *)
Fixpoint most_recent_press (tl : Timeline) (key : pyfloat)
    : option TimelineEntry :=
  match tl with
  | [] => None
  | kp :: older =>
      match kp with
      | Some e =>
          if pyfloat_eqb (entry_key e) key && py_truthy (entry_pressed e)
          then Some e
          else most_recent_press older key
      | None => most_recent_press older key
      end
  end.

(** The entries held by the timeline, most recent first. *)
Definition tl_entries (tl : Timeline) : list TimelineEntry := omap id tl.

(** The timeline after the events [es] have been recorded, oldest first. *)
Definition pushes (es : list TimelineEntry) (tl : Timeline) : Timeline :=
  fold_left (fun tl e => tl_appendleft e tl) es tl.

(** A script line that does not parse: its token count is not two, or its
    argument is refused by [float]. *)
Definition malformed (py_float : string → option pyfloat) (cmd : string)
    : Prop :=
  length (py_split cmd) ≠ 2%nat ∨
  ∃ op arg, py_split cmd = [op; arg] ∧ py_float arg = None.

(** The errors of the colour setters of [LEDCommand] as announced:
    [TypeError] when the value is not a class, [LEDInterfaceError] when it
    is one. *)
Definition setter_error_by_class (v : PyVal) : Exn :=
  match v with PyClass _ => LEDInterfaceError | _ => TypeError end.

(** The error the colour setters of [LEDCommand] raise: [TypeError] from
    [isinstance] when the value is not a class, [TypeError] from the
    comparison with [0] when it is a class that [int] is an instance of,
    [LEDInterfaceError] for the other classes. *)
Definition setter_error (v : PyVal) : Exn :=
  match v with
  | PyClass TObject | PyClass TType => TypeError
  | PyClass _ => LEDInterfaceError
  | _ => TypeError
  end.

(** ** A decimal reader for [float]

    [float_of_string] instantiates the [py_float] of the environment on
    concrete scripts: an optional sign, then [inf], [infinity] or [nan] in
    any case, or decimal digits (single underscores allowed between
    digits) with an optional point and exponent.  The value is the exact
    rational; rounding to a double is not modelled. *)

Definition digit_of (c : ascii) : option Z :=
  let n := nat_of_ascii c in
  if ((48 <=? n) && (n <=? 57))%nat then Some (Z.of_nat n - 48) else None.

Definition lower (c : ascii) : ascii :=
  let n := nat_of_ascii c in
  if ((65 <=? n) && (n <=? 90))%nat then ascii_of_nat (n + 32) else c.

(** The longest prefix of the form [digit (["_"] digit)*], as the list of
    its digits, and what follows it. *)
Fixpoint digitpart (s : list ascii) : list Z * list ascii :=
  match s with
  | [] => ([], [])
  | c :: rest =>
      match digit_of c with
      | None => ([], s)
      | Some d =>
          let '(ds, after) :=
            match rest with
            | u :: ((c2 :: _) as rest2) =>
                if Ascii.eqb u "_" && bool_decide (is_Some (digit_of c2))
                then digitpart rest2 else digitpart rest
            | _ => digitpart rest
            end in
          (d :: ds, after)
      end
  end.

Definition digits_value (ds : list Z) : Z :=
  fold_left (fun acc d => 10 * acc + d) ds 0.

(** [m * 10 ^ e] *)
Definition scale10 (m e : Z) : Q :=
  if 0 <=? e then inject_Z (m * 10 ^ e) else Qmake m (Z.to_pos (10 ^ (- e))).

Definition read_sign (s : list ascii) : bool * list ascii :=
  match s with
  | c :: rest =>
      if Ascii.eqb c "-" then (true, rest)
      else if Ascii.eqb c "+" then (false, rest)
      else (false, s)
  | [] => (false, [])
  end.

Definition read_exponent (s : list ascii) : option Z :=
  match s with
  | [] => Some 0
  | c :: rest =>
      if Ascii.eqb (lower c) "e" then
        let '(neg, rest1) := read_sign rest in
        match digitpart rest1 with
        | ((_ :: _) as ds, []) =>
            Some (if (neg : bool) then - digits_value ds else digits_value ds)
        | _ => None
        end
      else None
  end.

Definition read_number (s : list ascii) : option Q :=
  let '(ip, rest) := digitpart s in
  let '(fp, rest1) :=
    match rest with
    | c :: rest0 => if Ascii.eqb c "." then digitpart rest0 else ([], rest)
    | [] => ([], [])
    end in
  match ip, fp with
  | [], [] => None
  | _, _ =>
      e ← read_exponent rest1;
      Some (scale10 (digits_value (ip ++ fp)) (e - Z.of_nat (length fp)))
  end.

(** The characters [float] and [int] strip from the two ends of a string:
    the whitespace of C (tab to carriage return, and the space) and, of
    the code points above 126, the two that are whitespace below 256.
    The separators U+001C to U+001F split a line but are not stripped
    from a number. *)
Definition is_number_space (c : ascii) : bool :=
  let n := nat_of_ascii c in
  ((9 <=? n) && (n <=? 13) || (n =? 32) || (n =? 133) || (n =? 160))%nat.

Fixpoint skip_spaces (s : list ascii) : list ascii :=
  match s with
  | c :: rest => if is_number_space c then skip_spaces rest else s
  | [] => []
  end.

Definition strip (s : list ascii) : list ascii :=
  rev (skip_spaces (rev (skip_spaces s))).

Definition float_of_string (s : string) : option pyfloat :=
  let '(neg, body) := read_sign (strip (list_ascii_of_string s)) in
  let word := string_of_list_ascii (map lower body) in
  if String.eqb word "inf" || String.eqb word "infinity"
  then Some (if (neg : bool) then NegInf else PosInf)
  else if String.eqb word "nan" then Some NaN
  else q ← read_number body; Some (Fin (if (neg : bool) then - q else q)%Q).

(** ** Concrete environments

    A clock given by the list of its successive readings, and the script
    of [example.py]. *)

Definition readings (l : list Q) (n : nat) : Q := nth n l 0%Q.

Definition example_script : list string :=
  ["down 1"; "sleep 0.2"; "up 1"; "down 0"; "sleep 0.6"; "up 0"]%string.

(** [ki = KeyInterface(Implementation.SIMULATED); ki.setup(script=script)] *)
Definition example_interface (script : list string) : KeyInterface :=
  setup (KeyInterface_init SIMULATED) 3 script.

(** The producer at its start: an empty queue and a clock not yet read. *)
Definition start (ki : KeyInterface) (listen_for : list KeySequence)
    : Producer :=
  mkProducer (KeySequenceListener_init ki listen_for) [] 0.

(** The value a turn puts on the queue. *)
Definition published_of (r : result (Published * Timeline * nat))
    : result Published :=
  (fun x => x.1.1) <$> r.

(** ** Integer conversion *)

(** The value of a character as a digit, for bases up to sixteen. *)
Definition hex_value (c : ascii) : option Z :=
  let n := nat_of_ascii c in
  if ((48 <=? n) && (n <=? 57))%nat then Some (Z.of_nat n - 48)
  else if ((97 <=? n) && (n <=? 102))%nat then Some (Z.of_nat n - 87)
  else if ((65 <=? n) && (n <=? 70))%nat then Some (Z.of_nat n - 55)
  else None.

Definition radix_digit (base : Z) (c : ascii) : option Z :=
  match hex_value c with
  | Some d => if d <? base then Some d else None
  | None => None
  end.

(** The longest prefix of the form [digit (["_"] digit)*] in base [base],
    and what follows it. *)
Fixpoint digit_run (base : Z) (s : list ascii) : list Z * list ascii :=
  match s with
  | [] => ([], [])
  | c :: rest =>
      match radix_digit base c with
      | None => ([], s)
      | Some d =>
          let '(ds, after) :=
            match rest with
            | u :: ((c2 :: _) as rest2) =>
                if Ascii.eqb u "_"
                   && bool_decide (is_Some (radix_digit base c2))
                then digit_run base rest2 else digit_run base rest
            | _ => digit_run base rest
            end in
          (d :: ds, after)
      end
  end.

Definition digits_value_in (base : Z) (ds : list Z) : Z :=
  fold_left (fun acc d => base * acc + d) ds 0.

(** With base sixteen a prefix [0x] or [0X] is skipped, and one underscore
    after it. *)
Definition skip_prefix16 (s : list ascii) : list ascii :=
  match s with
  | z :: x :: rest =>
      if Ascii.eqb z "0" && Ascii.eqb (lower x) "x"
      then match rest with
           | u :: rest' => if Ascii.eqb u "_" then rest' else rest
           | [] => rest
           end
      else s
  | _ => s
  end.

(** [int(s, base)] for [base] ten or sixteen: surrounding whitespace, an
    optional sign, the digits. *)
Definition int_of_string (base : Z) (s : string) : result Z :=
  let '(neg, body) := read_sign (strip (list_ascii_of_string s)) in
  let body := if base =? 16 then skip_prefix16 body else body in
  match digit_run base body with
  | ((_ :: _) as ds, []) =>
      Ok (if (neg : bool) then - digits_value_in base ds
          else digits_value_in base ds)
  | _ => Raise ValueError
  end.

(** [int(v)] *)
Definition py_int (v : PyVal) : result Z :=
  match v with
  | PyNone => Raise TypeError
  | PyBool b => Ok (if b then 1 else 0)
  | PyInt z => Ok z
  | PyFloat f => int_of_float f
  | PyStr s => int_of_string 10 s
  | PyClass _ => Raise TypeError
  end.

(** [s[i:j]] for indices that are not negative. *)
Definition py_slice (s : string) (i j : nat) : string := substring i (j - i) s.

(** ** KeyState: colours *)

(** An operation on an object that is updated in place: it completes, or
    it raises and leaves the object as it was at that moment. *)
Inductive effect (S : Type) : Type :=
  | Done (s : S)
  | Failed (s : S) (e : Exn).

Arguments Done {S} s.
Arguments Failed {S} s e.

Definition and_then {S} (m : effect S) (f : S → effect S) : effect S :=
  match m with
  | Done s => f s
  | Failed s e => Failed s e
  end.

(** A step that either replaces the object or raises without touching
    it. *)
Definition attempt {S} (s : S) (r : result S) : effect S :=
  match r with
  | Ok s' => Done s'
  | Raise e => Failed s e
  end.

Definition state_after {S} (m : effect S) : S :=
  match m with Done s => s | Failed s _ => s end.

Definition raised {S} (m : effect S) : option Exn :=
  match m with Done _ => None | Failed _ e => Some e end.

Module KeyStateColour.

(** The body shared by the setters of [r], [g] and [b]:
    [int(var)], with [TypeError] turned into [KeyStateError]. *)
Definition channel (var : PyVal) : result Z :=
  match py_int var with
  | Ok z => Ok z
  | Raise TypeError => Raise KeyStateError
  | Raise e => Raise e
  end.

Definition set_r (self : KeyState) (var : PyVal) : result KeyState :=
  z ← channel var;
  Ok (mkKeyState (ks_pressed self) z (ks_g self) (ks_b self)).

Definition set_g (self : KeyState) (var : PyVal) : result KeyState :=
  z ← channel var;
  Ok (mkKeyState (ks_pressed self) (ks_r self) z (ks_b self)).

Definition set_b (self : KeyState) (var : PyVal) : result KeyState :=
  z ← channel var;
  Ok (mkKeyState (ks_pressed self) (ks_r self) (ks_g self) z).

(** [set_colour]: three assignments in a row. *)
Definition set_colour (self : KeyState) (r g b : PyVal) : effect KeyState :=
  and_then (attempt self (set_r self r)) (fun s1 =>
  and_then (attempt s1 (set_g s1 g)) (fun s2 =>
  attempt s2 (set_b s2 b))).

(** [clear] *)
Definition clear (self : KeyState) : effect KeyState :=
  and_then (attempt self (set_r self (PyInt 0))) (fun s1 =>
  and_then (attempt s1 (set_g s1 (PyInt 0))) (fun s2 =>
  attempt s2 (set_b s2 (PyInt 0)))).

(** [down] writes [_pressed] directly, [up] goes through the setter. *)
Definition down (self : KeyState) : KeyState :=
  mkKeyState (PyBool true) (ks_r self) (ks_g self) (ks_b self).

Definition up (self : KeyState) : result KeyState :=
  KeyStateOps.set_pressed self (PyBool false).

End KeyStateColour.

(** ** KeyInterface: LEDs *)

(** Calls made to the [keybow] driver module.  The driver is outside this
    model: a call is recorded and taken to return. *)
Inductive DriverCall : Type :=
  | DrvSetLed (idx : pyfloat) (r g b : PyVal)
  | DrvShow
  | DrvClear.

(** The interface together with the driver calls made so far, oldest
    first. *)
Record Board : Type := mkBoard {
  bd_ki : KeyInterface;
  bd_calls : list DriverCall
}.

Definition is_keybow (self : KeyInterface) : bool :=
  match ki_impl self with KEYBOW => true | _ => false end.

(** [if self._impl == Implementation.KEYBOW: self._keybow.<call>] *)
Definition driver_call (w : Board) (c : DriverCall) : Board :=
  if is_keybow (bd_ki w) then mkBoard (bd_ki w) (bd_calls w ++ [c]) else w.

Definition with_key_state (self : KeyInterface) (k : Z) (ks : KeyState)
    : KeyInterface :=
  mkKeyInterface (ki_impl self) (<[k := ks]> (ki_state self))
    (ki_last_press self) (ki_script self) (ki_script_position self).

(** [self._state[idx]] *)
Definition state_at (self : KeyInterface) (idx : pyfloat)
    : option (Z * KeyState) :=
  match dict_key idx with
  | Some k =>
      match ki_state self !! k with
      | Some ks => Some (k, ks)
      | None => None
      end
  | None => None
  end.

(** [show]: the loop that follows only writes to the debug log. *)
Definition show (w : Board) : Board := driver_call w DrvShow.

(** [set_led] *)
Definition set_led (w : Board) (idx : pyfloat) (r g b : PyVal)
    : effect Board :=
  let w1 := driver_call w (DrvSetLed idx r g b) in
  match state_at (bd_ki w1) idx with
  | None => Failed w1 KeyError
  | Some (k, ks) =>
      match KeyStateColour.set_colour ks r g b with
      | Done ks' =>
          Done (show (mkBoard (with_key_state (bd_ki w1) k ks') (bd_calls w1)))
      | Failed ks' e =>
          Failed (mkBoard (with_key_state (bd_ki w1) k ks') (bd_calls w1)) e
      end
  end.

(** [_from_hexcode] *)
Definition from_hexcode (code : string) : result (Z * Z * Z) :=
  r ← int_of_string 16 (py_slice code 0 2);
  g ← int_of_string 16 (py_slice code 2 4);
  b ← int_of_string 16 (py_slice code 4 6);
  Ok (r, g, b).

(** [led_on] *)
Definition led_on (w : Board) (key_idx : pyfloat) (hexcode : string)
    : effect Board :=
  match from_hexcode hexcode with
  | Ok (r, g, b) => set_led w key_idx (PyInt r) (PyInt g) (PyInt b)
  | Raise e => Failed w e
  end.

(** [led_off] *)
Definition led_off (w : Board) (key_idx : pyfloat) : effect Board :=
  set_led w key_idx (PyInt 0) (PyInt 0) (PyInt 0).

(** [led_toggle]; [hexcode] is [None] or a string, and both [None] and
    the empty string are falsy. *)
Definition led_toggle (w : Board) (key_idx : pyfloat)
    (hexcode : option string) : effect Board :=
  match state_at (bd_ki w) key_idx with
  | None => Failed w KeyError
  | Some (_, ks) =>
      if KeyStateOps.is_lit ks then led_off w key_idx
      else match hexcode with
           | None | Some EmptyString => Failed w LEDInterfaceError
           | Some code => led_on w key_idx code
           end
  end.

(** The keys of the registry in the order a [for] loop visits them.
    [setup] is the only writer of the keys and inserts them in ascending
    order, which is the order the dictionary keeps. *)
Definition registry_keys (self : KeyInterface) : list Z :=
  merge_sort Z.le (elements (dom (ki_state self))).

(** [all_leds_off] *)
Definition all_leds_off (w : Board) : effect Board :=
  fold_left
    (fun acc idx => and_then acc (fun w' =>
       set_led w' (Fin (inject_Z idx)) (PyInt 0) (PyInt 0) (PyInt 0)))
    (registry_keys (bd_ki w)) (Done w).

(** [self._state[k].clear()] inside [clear]. *)
Definition clear_key (w : Board) (k : Z) : effect Board :=
  match ki_state (bd_ki w) !! k with
  | None => Failed w KeyError
  | Some ks =>
      match KeyStateColour.clear ks with
      | Done ks' => Done (mkBoard (with_key_state (bd_ki w) k ks') (bd_calls w))
      | Failed ks' e =>
          Failed (mkBoard (with_key_state (bd_ki w) k ks') (bd_calls w)) e
      end
  end.

(** [clear] *)
Definition clear (w : Board) : effect Board :=
  fold_left (fun acc k => and_then acc (fun w' => clear_key w' k))
    (registry_keys (bd_ki w)) (Done (driver_call w DrvClear)).

(** A board without driver calls yet. *)
Definition board (self : KeyInterface) : Board := mkBoard self [].

(** A key state with its colour replaced, and with its colour off; used
    to state what the LED operations leave behind. *)
Definition with_colour (ks : KeyState) (r g b : Z) : KeyState :=
  mkKeyState (ks_pressed ks) r g b.

Definition switched_off (ks : KeyState) : KeyState := with_colour ks 0 0 0.

(** The driver calls of one [set_led] on a registered key, if the
    interface has a driver. *)
Definition led_calls (self : KeyInterface) (idx : pyfloat) (r g b : PyVal)
    : list DriverCall :=
  if is_keybow self then [DrvSetLed idx r g b; DrvShow] else [].

(** What a published item says about the transition recorded in the same
    turn: the empty marker goes with a press, a classification with a
    release of the key it names, and it is [SINGLE], or [HOLD] when
    [HOLD] is listened for. *)
Definition explains (listen_for : list KeySequence) (e : TimelineEntry)
    (item : Published) : Prop :=
  match item with
  | NoSequence => py_truthy (entry_pressed e) = true
  | Sequence z seq =>
      py_truthy (entry_pressed e) = false ∧
      int_of_float (entry_key e) = Ok z ∧
      (seq = SINGLE ∨ (seq = HOLD ∧ listens_for listen_for HOLD = true))
  end.

(** A key state with its pressed flag replaced. *)
Definition with_pressed (ks : KeyState) (v : PyVal) : KeyState :=
  mkKeyState v (ks_r ks) (ks_g ks) (ks_b ks).

Definition same_colour (a b : KeyState) : Prop :=
  ks_r a = ks_r b ∧ ks_g a = ks_g b ∧ ks_b a = ks_b b.

(** * Properties *)

(** ** KeyState *)

Lemma py_in_true_false (v : PyVal) :
  py_in v [PyBool true; PyBool false] = py_eq v (PyInt 1) || py_eq v (PyInt 0).
Proof.
  unfold py_in, py_eq; simpl.
  destruct (py_number v); simpl; [ | destruct v; reflexivity ].
  now rewrite orb_false_r.
Qed.

(** The setter of [pressed] refuses exactly the values that compare
    unequal to both [True] and [False]. *)
Lemma set_pressed_raises_iff (ks : KeyState) (v : PyVal) :
  KeyStateOps.set_pressed ks v = Raise KeyStateError ↔
  py_eq v (PyBool true) = false ∧ py_eq v (PyBool false) = false.
Proof.
  unfold KeyStateOps.set_pressed, py_in; simpl.
  rewrite orb_false_r.
  destruct (py_eq v (PyBool true)), (py_eq v (PyBool false)); simpl;
    split; intros H; try discriminate; try tauto; destruct H; discriminate.
Qed.

(** Assigning a boolean to [pressed] succeeds and the next read returns
    it. *)
Lemma set_pressed_bool (ks : KeyState) (b : bool) :
  ∃ ks', KeyStateOps.set_pressed ks (PyBool b) = Ok ks' ∧
         KeyStateOps.pressed ks' = PyBool b.
Proof. destruct b; eexists; split; reflexivity. Qed.

(** C6, evaluated where it fails: the integers [1] and [0] are not
    booleans, yet the setter of [pressed] takes them, because the test
    [var not in (True, False)] compares with [==]; the value stored and
    read back is the integer. *)
Theorem set_pressed_accepts_integers (ks : KeyState) (z : Z) :
  py_type (PyInt z) ≠ TBool ∧
  (KeyStateOps.set_pressed ks (PyInt z) = Raise KeyStateError ↔
   z ≠ 1 ∧ z ≠ 0) ∧
  ∃ ks1, KeyStateOps.set_pressed ks (PyInt 1) = Ok ks1 ∧
         KeyStateOps.pressed ks1 = PyInt 1.
Proof.
  split; [ discriminate | split ].
  - rewrite set_pressed_raises_iff.
    unfold py_eq; simpl. unfold Qeq_bool; simpl.
    rewrite !Z.mul_1_r.
    destruct (Z.eqb_spec z 1), (Z.eqb_spec z 0); split; intros H;
      try discriminate; try tauto; try (destruct H; discriminate); lia.
  - eexists; split; reflexivity.
Qed.

Lemma format_02x_byte (z : Z) :
  0 ≤ z ≤ 255 → format_02x z = hex_byte z.
Proof.
  intros Hz.
  assert (Hall : forallb (fun n => String.eqb (format_02x (Z.of_nat n))
                                     (hex_byte (Z.of_nat n)))
                   (seq 0 256) = true) by (vm_compute; reflexivity).
  rewrite forallb_forall in Hall.
  specialize (Hall (Z.to_nat z)).
  rewrite Z2Nat.id in Hall by lia.
  apply String.eqb_eq, Hall, in_seq. lia.
Qed.

Lemma is_lit_false_iff (ks : KeyState) :
  KeyStateOps.is_lit ks = false ↔ ks_r ks = 0 ∧ ks_g ks = 0 ∧ ks_b ks = 0.
Proof.
  unfold KeyStateOps.is_lit, KeyStateOps.r, KeyStateOps.g, KeyStateOps.b.
  destruct (Z.eqb_spec (ks_r ks) (ks_g ks)), (Z.eqb_spec (ks_g ks) (ks_b ks)),
    (Z.eqb_spec (ks_b ks) 0); simpl; split; intros H;
    try discriminate; try reflexivity; lia.
Qed.

(** C7: with [r], [g] and [b] in [0, 255] the colour code is the
    concatenation of the three two-digit lowercase hexadecimal bytes, six
    characters in all, and [is_lit] is false exactly when the three
    channels are zero. *)
Theorem colourcode_is_lit_spec (ks : KeyState) :
  0 ≤ ks_r ks ≤ 255 → 0 ≤ ks_g ks ≤ 255 → 0 ≤ ks_b ks ≤ 255 →
  KeyStateOps.colourcode ks
    = (hex_byte (ks_r ks) ++ hex_byte (ks_g ks) ++ hex_byte (ks_b ks))%string ∧
  String.length (KeyStateOps.colourcode ks) = 6%nat ∧
  (KeyStateOps.is_lit ks = false ↔ ks_r ks = 0 ∧ ks_g ks = 0 ∧ ks_b ks = 0).
Proof.
  intros Hr Hg Hb.
  assert (Hcode : KeyStateOps.colourcode ks
    = (hex_byte (ks_r ks) ++ hex_byte (ks_g ks) ++ hex_byte (ks_b ks))%string).
  { unfold KeyStateOps.colourcode, KeyStateOps.r, KeyStateOps.g, KeyStateOps.b.
    now rewrite !format_02x_byte. }
  split; [ exact Hcode | split ].
  - rewrite Hcode. reflexivity.
  - apply is_lit_false_iff.
Qed.

(** ** LEDCommand *)

Lemma rejects_spec (v : PyVal) :
  LEDCommandOps.rejects v =
  match v with
  | PyClass TObject | PyClass TType => Raise TypeError
  | PyClass _ => Ok true
  | _ => Raise TypeError
  end.
Proof. destruct v as [ | | | | | []]; reflexivity. Qed.

(** On the values of [PyVal] the three colour setters raise: [TypeError]
    from [isinstance] when the value is not a class, [TypeError] from the
    comparison when it is [object] or [type], and [LEDInterfaceError] for
    the other classes.  The assignment that follows the guard writes [_r]
    in all three setters. *)
Lemma LEDCommand_setters_always_raise (self : LEDCommand) (v : PyVal) :
  LEDCommandOps.set_r self v = Raise (setter_error v) ∧
  LEDCommandOps.set_g self v = Raise (setter_error v) ∧
  LEDCommandOps.set_b self v = Raise (setter_error v) ∧
  (∀ z : Z, setter_error (PyInt z) = TypeError) ∧
  lc_r (LEDCommandOps.assign_after_g self v) = v ∧
  lc_g (LEDCommandOps.assign_after_g self v) = lc_g self ∧
  lc_r (LEDCommandOps.assign_after_b self v) = v ∧
  lc_b (LEDCommandOps.assign_after_b self v) = lc_b self.
Proof.
  unfold LEDCommandOps.set_r, LEDCommandOps.set_g, LEDCommandOps.set_b.
  rewrite rejects_spec.
  repeat split; destruct v as [ | | | | | []]; reflexivity.
Qed.

(** C10, evaluated where it fails: assigning the class [object] (or
    [type]) to [r], [g] or [b].  The guard tests [isinstance(int, val)]
    with its arguments reversed; [int] is an instance of [object], so the
    first disjunct is false and the guard goes on to compare the class
    with [0], which raises [TypeError].  A class is thus not refused with
    the [LEDInterfaceError] the guard is written to raise. *)
Theorem LEDCommand_setters_object_raise_TypeError (self : LEDCommand) :
  py_isinstance (PyClass TInt) (PyClass TObject) = Ok true ∧
  py_lt_int (PyClass TObject) 0 = Raise TypeError ∧
  LEDCommandOps.set_r self (PyClass TObject) = Raise TypeError ∧
  LEDCommandOps.set_g self (PyClass TObject) = Raise TypeError ∧
  LEDCommandOps.set_b self (PyClass TObject) = Raise TypeError ∧
  LEDCommandOps.set_r self (PyClass TType) = Raise TypeError ∧
  LEDCommandOps.set_g self (PyClass TType) = Raise TypeError ∧
  LEDCommandOps.set_b self (PyClass TType) = Raise TypeError ∧
  setter_error_by_class (PyClass TObject) = LEDInterfaceError ∧
  LEDCommandOps.set_r self (PyClass TObject)
    ≠ Raise (setter_error_by_class (PyClass TObject)).
Proof.
  repeat split; try reflexivity. discriminate.
Qed.

(** ** The timeline *)

Lemma take_app_take {A} (n : nat) (l k : list A) :
  take n (l ++ take n k) = take n (l ++ k).
Proof.
  rewrite !take_app, take_take. do 2 f_equal. lia.
Qed.

Lemma pushes_app (es1 es2 : list TimelineEntry) (tl : Timeline) :
  pushes (es1 ++ es2) tl = pushes es2 (pushes es1 tl).
Proof. apply fold_left_app. Qed.

(** Recording [es] onto a timeline that respects the bound prepends them,
    newest first, and cuts at the capacity. *)
Lemma pushes_take (es : list TimelineEntry) (tl : Timeline) :
  (length tl ≤ tl_maxlen)%nat →
  pushes es tl = take tl_maxlen (map Some (rev es) ++ tl).
Proof.
  revert tl. induction es as [ | e es IH]; intros tl Hlen; simpl.
  - symmetry. now apply take_ge.
  - unfold pushes in IH. rewrite IH.
    + unfold tl_appendleft, deque_appendleft.
      rewrite take_app_take, map_app, <- app_assoc. reflexivity.
    + unfold tl_appendleft, deque_appendleft. rewrite length_take. lia.
Qed.

Lemma omap_id_map_Some {A} (l : list A) : omap id (map Some l) = l.
Proof. induction l as [ | x l IH]; simpl; [ | f_equal; exact IH ]; reflexivity. Qed.

Lemma omap_id_replicate_None {A} (n : nat) :
  omap id (replicate n (@None A)) = [].
Proof. induction n as [ | n IH]; simpl; [ reflexivity | exact IH ]. Qed.

Lemma tl_entries_pushes (es : list TimelineEntry) :
  tl_entries (pushes es tl_init) = take tl_maxlen (rev es).
Proof.
  rewrite pushes_take by (unfold tl_init; rewrite length_replicate; reflexivity).
  unfold tl_entries, tl_init.
  rewrite take_app, omap_app, take_replicate, omap_id_replicate_None, app_nil_r.
  rewrite <- (omap_id_map_Some (take tl_maxlen (rev es))).
  f_equal. rewrite <- fmap_take. reflexivity.
Qed.

(** C5: whatever is pushed, the timeline keeps its 50 slots and so holds
    at most 50 entries; they are the 50 newest pushes, most recent first,
    with the values they were pushed with; after 51 pushes the slots hold
    exactly pushes 2 to 51 and the first push is gone. *)
Theorem timeline_keeps_newest_50 (es : list TimelineEntry) :
  let tl := pushes es tl_init in
  length tl = 50%nat ∧
  (length (tl_entries tl) ≤ 50)%nat ∧
  tl_entries tl = take 50 (rev es) ∧
  (∀ e, In e (tl_entries tl) → In e es) ∧
  (∀ oldest newer, es = oldest :: newer → length newer = 50%nat →
     tl = map Some (rev newer) ∧
     tl_entries tl = rev newer ∧
     (¬ In oldest newer → ¬ In (Some oldest) tl)).
Proof.
  intros tl.
  assert (Htl : tl = take 50 (map Some (rev es) ++ tl_init)).
  { apply pushes_take. unfold tl_init. rewrite length_replicate. reflexivity. }
  assert (Hent : tl_entries tl = take 50 (rev es)) by apply tl_entries_pushes.
  split; [ | split; [ | split; [ exact Hent | split ] ] ].
  - rewrite Htl, length_take, length_app. unfold tl_init.
    rewrite length_replicate. lia.
  - rewrite Hent, length_take. lia.
  - intros e He. rewrite Hent in He.
    apply in_rev. apply list_elem_of_In in He. apply list_elem_of_In.
    eapply subseteq_take, He.
  - intros oldest newer -> Hlen.
    assert (Hcut : tl = map Some (rev newer)).
    { rewrite Htl. simpl rev. rewrite map_app, <- app_assoc.
      rewrite take_app_le by (rewrite length_map, length_rev; lia).
      apply take_ge. rewrite length_map, length_rev. lia. }
    split; [ exact Hcut | split ].
    + rewrite Hcut. apply omap_id_map_Some.
    + intros Hnot Hin. rewrite Hcut in Hin.
      apply in_map_iff in Hin as (x & [= ->] & Hx).
      apply Hnot, in_rev, Hx.
Qed.

(** ** The sequence classifier and the producer loop *)

Lemma Qltb_lt (a b : Q) : Qltb a b = true ↔ (a < b)%Q.
Proof.
  unfold Qltb. rewrite negb_true_iff, <- not_true_iff_false, Qle_bool_iff.
  split; [ apply Qnot_le_lt | apply Qlt_not_le ].
Qed.

Lemma key_history_filter (tl : Timeline) (key : pyfloat) :
  key_history tl key = List.filter (entry_matches key) tl.
Proof. reflexivity. Qed.

(** The head of [key_history] is the first match from the left end. *)
Lemma key_history_most_recent (tl : Timeline) (key : pyfloat) :
  match most_recent_entry tl key with
  | Some e => ∃ rest, key_history tl key = Some e :: rest
  | None => key_history tl key = []
  end.
Proof.
  rewrite key_history_filter.
  induction tl as [ | kp tl IH]; simpl; [ reflexivity | ].
  destruct (entry_matches key kp) eqn:Hm; [ | exact IH ].
  destruct kp as [e | ]; [ eexists; reflexivity | discriminate ].
Qed.

Lemma most_recent_entry_split (tl : Timeline) (key : pyfloat)
    (e : TimelineEntry) :
  most_recent_entry tl key = Some e →
  ∃ pre post, tl = pre ++ Some e :: post ∧
              pyfloat_eqb (entry_key e) key = true ∧
              key_history pre key = [].
Proof.
  induction tl as [ | kp tl IH]; simpl; [ discriminate | ].
  destruct (entry_matches key kp) eqn:Hm.
  - intros ->. exists [], tl. split; [ reflexivity | split; [ exact Hm | reflexivity ] ].
  - intros H. destruct (IH H) as (pre & post & -> & Hk & Hpre).
    exists (kp :: pre), post. split; [ reflexivity | split; [ exact Hk | ] ].
    rewrite key_history_filter in Hpre |- *. simpl. rewrite Hm. exact Hpre.
Qed.

Lemma most_recent_press_of_entry (tl : Timeline) (key : pyfloat)
    (e : TimelineEntry) :
  most_recent_entry tl key = Some e →
  py_truthy (entry_pressed e) = true →
  most_recent_press tl key = Some e.
Proof.
  induction tl as [ | kp tl IH]; simpl; [ discriminate | ].
  destruct kp as [e' | ]; simpl; [ | exact IH ].
  destruct (pyfloat_eqb (entry_key e') key); simpl; [ | exact IH ].
  intros [= ->] ->. reflexivity.
Qed.

Section Classifier.

Variable py_float : string → option pyfloat.
Variable time_time : nat → Q.

(** A release of a key with history is classified from the head of the
    history, and recorded afterwards. *)
Lemma produce_step_release (lf : list KeySequence) (tl : Timeline) (n : nat)
    (k : pyfloat) (v : PyVal) (e : TimelineEntry) :
  py_truthy v = false →
  most_recent_entry tl k = Some e →
  produce_step time_time lf tl n (Some (k, v)) =
    (res ← classify lf k (press_duration (time_time n) e);
     Ok (res, tl_appendleft (time_time (S n), (k, v)) tl, S (S n))).
Proof.
  intros Hv He. unfold produce_step. simpl. rewrite Hv. simpl.
  pose proof (key_history_most_recent tl k) as Hh. rewrite He in Hh.
  destruct Hh as [rest ->].
  destruct (classify lf k (press_duration (time_time n) e)); reflexivity.
Qed.

(** A press is recorded and nothing is classified. *)
Lemma produce_step_press (lf : list KeySequence) (tl : Timeline) (n : nat)
    (k : pyfloat) (v : PyVal) :
  py_truthy v = true →
  produce_step time_time lf tl n (Some (k, v)) =
    Ok (NoSequence, tl_appendleft (time_time n, (k, v)) tl, S n).
Proof. intros Hv. unfold produce_step. simpl. rewrite Hv. reflexivity. Qed.

(** Whenever a turn completes, it has recorded the transition at the left
    end of the timeline. *)
Lemma produce_step_records (lf : list KeySequence) (tl tl' : Timeline)
    (n n' : nat) (kp : keypress) (res : Published) :
  produce_step time_time lf tl n (Some kp) = Ok (res, tl', n') →
  ∃ t, tl' = tl_appendleft (t, kp) tl.
Proof.
  unfold produce_step.
  destruct (negb (py_truthy kp.2)).
  - destruct (key_history tl kp.1) as [ | [e | ] rest]; simpl;
      [ discriminate | | ].
    + destruct (classify lf kp.1 (press_duration (time_time n) e)); simpl;
        [ | discriminate ].
      intros [= _ <- _]. eexists; reflexivity.
    + intros [= _ <- _]. eexists; reflexivity.
  - simpl. intros [= _ <- _]. eexists; reflexivity.
Qed.

(** C1, evaluated where it fails: a release whose HOLD rule does not fire
    is published as [(key, SINGLE)] although [SINGLE] is not in
    [listen_for]; the branch never consults the list. *)
Theorem single_published_when_not_listened_for (lf : list KeySequence)
    (tl : Timeline) (n : nat) (q : Q) (v : PyVal) (e : TimelineEntry) :
  py_truthy v = false →
  most_recent_entry tl (Fin q) = Some e →
  listens_for lf SINGLE = false →
  Qltb 500 (press_duration (time_time n) e) && listens_for lf HOLD = false →
  produce_step time_time lf tl n (Some (Fin q, v)) =
    Ok (Sequence (Qtrunc q) SINGLE,
        tl_appendleft (time_time (S n), (Fin q, v)) tl, S (S n)).
Proof.
  intros Hv He _ Hhold.
  rewrite (produce_step_release _ _ _ _ _ _ Hv He).
  unfold classify. rewrite Hhold. reflexivity.
Qed.

(** C2, evaluated where it fails: a release of a key that has no entry in
    the timeline makes [key_history[0]] raise [IndexError]; the turn ends
    there, so the producer stops with that exception and the queue
    receives nothing, not even the empty marker. *)
Theorem release_without_history_raises (lf : list KeySequence)
    (tl : Timeline) (n : nat) (k : pyfloat) (v : PyVal) :
  py_truthy v = false →
  most_recent_entry tl k = None →
  produce_step time_time lf tl n (Some (k, v)) = Raise IndexError ∧
  ∀ depth turns p,
    l_listen_for (p_listener p) = lf → l_tl (p_listener p) = tl →
    p_reads p = n →
    w_outcome (async_wait py_float depth (l_ki (p_listener p)))
      = Returned (Some (k, v)) →
    let p' := set_interface p
                (w_self (async_wait py_float depth (l_ki (p_listener p)))) in
    produce py_float time_time depth (S turns) p = (p', Stopped IndexError) ∧
    p_queue p' = p_queue p.
Proof.
  intros Hv He.
  assert (Hstep : produce_step time_time lf tl n (Some (k, v))
                  = Raise IndexError).
  { unfold produce_step. simpl. rewrite Hv. simpl.
    pose proof (key_history_most_recent tl k) as Hh. rewrite He in Hh.
    rewrite Hh. reflexivity. }
  split; [ exact Hstep | ].
  intros depth turns p Hlf Htl Hn Hout. simpl.
  rewrite Hout, Hlf, Htl, Hn, Hstep. split; reflexivity.
Qed.

(** C3, as the code has it: the duration of a release of [k] is measured
    from the timestamp of the most recent entry for [k] in the timeline as
    it was before the release is recorded, whatever the pressed flag of
    that entry; when the flag is true, that entry is the most recent
    press of [k]. *)
Theorem duration_from_most_recent_entry (lf : list KeySequence)
    (tl : Timeline) (n : nat) (k : pyfloat) (v : PyVal) (e : TimelineEntry) :
  py_truthy v = false →
  most_recent_entry tl k = Some e →
  produce_step time_time lf tl n (Some (k, v)) =
    (res ← classify lf k (((time_time n - entry_time e) * 1000)%Q);
     Ok (res, tl_appendleft (time_time (S n), (k, v)) tl, S (S n))) ∧
  (∃ pre post, tl = pre ++ Some e :: post ∧
               pyfloat_eqb (entry_key e) k = true ∧
               key_history pre k = []) ∧
  (py_truthy (entry_pressed e) = true → most_recent_press tl k = Some e).
Proof.
  intros Hv He. split; [ | split ].
  - apply produce_step_release; assumption.
  - apply most_recent_entry_split, He.
  - apply most_recent_press_of_entry, He.
Qed.

(** C4: with [HOLD] listened for, a release with history is published as
    [(key, HOLD)] exactly when its duration exceeds 500 ms, and as
    [(key, SINGLE)] otherwise, in particular at exactly 500 ms. *)
Theorem hold_iff_duration_above_500 (lf : list KeySequence) (tl : Timeline)
    (n : nat) (q : Q) (v : PyVal) (e : TimelineEntry) :
  py_truthy v = false →
  most_recent_entry tl (Fin q) = Some e →
  listens_for lf HOLD = true →
  ∃ res,
    produce_step time_time lf tl n (Some (Fin q, v)) =
      Ok (res, tl_appendleft (time_time (S n), (Fin q, v)) tl, S (S n)) ∧
    (res = Sequence (Qtrunc q) HOLD ↔
       (500 < press_duration (time_time n) e)%Q) ∧
    (¬ (500 < press_duration (time_time n) e)%Q →
       res = Sequence (Qtrunc q) SINGLE) ∧
    ((press_duration (time_time n) e == 500)%Q →
       res = Sequence (Qtrunc q) SINGLE).
Proof.
  intros Hv He Hhold.
  rewrite (produce_step_release _ _ _ _ _ _ Hv He).
  unfold classify. rewrite Hhold, andb_true_r.
  destruct (Qltb 500 (press_duration (time_time n) e)) eqn:Hd; simpl.
  - apply Qltb_lt in Hd. eexists; split; [ reflexivity | ].
    split; [ tauto | split ].
    + intros Hn. contradiction.
    + intros Heq. rewrite Heq in Hd. now apply Qlt_irrefl in Hd.
  - assert (Hn : ¬ (500 < press_duration (time_time n) e)%Q).
    { intros Hlt. apply Qltb_lt in Hlt. congruence. }
    eexists; split; [ reflexivity | ].
    split; [ | split; reflexivity ].
    split; [ discriminate | intros Hlt; contradiction ].
Qed.

End Classifier.

(** ** The scripted event source *)

Section ScriptedSource.

Variable py_float : string → option pyfloat.
Variable time_time : nat → Q.

(** A turn whose [async_wait] raises ends the producer without touching
    the queue. *)
Lemma produce_stops_when_wait_raises (depth turns : nat) (p : Producer)
    (e : Exn) :
  w_outcome (async_wait py_float depth (l_ki (p_listener p))) = Raised e →
  produce py_float time_time depth (S turns) p =
    (set_interface p
       (w_self (async_wait py_float depth (l_ki (p_listener p)))),
     Stopped e).
Proof. intros H. simpl. rewrite H. reflexivity. Qed.

(** C8: executing a script line whose token count is not two, or whose
    argument [float] refuses, raises [ValueError] on the spot: nothing was
    slept, no key state and no mailbox was written, only the cursor has
    moved past the line; the producer stops with that error and publishes
    nothing. *)
Theorem malformed_line_raises_ValueError (depth : nat) (self : KeyInterface)
    (cmd : string) :
  ki_impl self = SIMULATED →
  ki_script self !! ki_script_position self = Some cmd →
  malformed py_float cmd →
  async_wait py_float (S depth) self =
    mkWaited [] (with_position self (S (ki_script_position self)))
      (Raised ValueError) ∧
  ki_state (w_self (async_wait py_float (S depth) self)) = ki_state self ∧
  ki_last_press (w_self (async_wait py_float (S depth) self))
    = ki_last_press self ∧
  ∀ turns p, l_ki (p_listener p) = self →
    produce py_float time_time (S depth) (S turns) p =
      (set_interface p (with_position self (S (ki_script_position self))),
       Stopped ValueError) ∧
    p_queue (produce py_float time_time (S depth) (S turns) p).1 = p_queue p.
Proof.
  intros Himpl Hcmd Hbad.
  assert (Hw : async_wait py_float (S depth) self =
    mkWaited [] (with_position self (S (ki_script_position self)))
      (Raised ValueError)).
  { simpl. rewrite Himpl, Hcmd.
    apply lookup_lt_Some in Hcmd.
    replace (length (ki_script self) <=? ki_script_position self)%nat
      with false by (symmetry; apply Nat.leb_gt; exact Hcmd).
    destruct Hbad as [Hlen | (op & arg & Hsplit & Hfloat)].
    - destruct (py_split cmd) as [ | a [ | b [ | c l]]];
        try reflexivity. now contradiction Hlen.
    - rewrite Hsplit, Hfloat. reflexivity. }
  split; [ exact Hw | ]. rewrite Hw.
  split; [ reflexivity | split; [ reflexivity | ] ].
  intros turns p Hp.
  rewrite produce_stops_when_wait_raises with (e := ValueError)
    by (rewrite Hp, Hw; reflexivity).
  rewrite Hp, Hw. split; reflexivity.
Qed.

(** At an exhausted cursor [async_wait] sleeps 99999999 seconds, then
    [self._script[self._script_position]] raises [IndexError]; the
    interface is left as it was. *)
Lemma async_wait_exhausted (depth : nat) (self : KeyInterface) :
  ki_impl self = SIMULATED →
  (length (ki_script self) ≤ ki_script_position self)%nat →
  async_wait py_float (S depth) self =
    mkWaited [Fin 99999999] self (Raised IndexError).
Proof.
  intros Himpl Hpos. simpl. rewrite Himpl.
  rewrite (lookup_ge_None_2 _ _ Hpos).
  apply Nat.leb_le in Hpos. rewrite Hpos. reflexivity.
Qed.

Lemma produce_exhausted (depth turns : nat) (p : Producer) :
  ki_impl (l_ki (p_listener p)) = SIMULATED →
  (length (ki_script (l_ki (p_listener p)))
     ≤ ki_script_position (l_ki (p_listener p)))%nat →
  p_queue (produce py_float time_time (S depth) turns p).1 = p_queue p.
Proof.
  intros Himpl Hpos. destruct turns as [ | turns]; [ reflexivity | ].
  rewrite produce_stops_when_wait_raises with (e := IndexError)
    by (rewrite async_wait_exhausted by assumption; reflexivity).
  reflexivity.
Qed.

(** C9, as the code has it: once the cursor is past the last command,
    [async_wait] starts by sleeping 99999999 seconds and does not return a
    transition; it leaves the interface unchanged, so the same holds for
    every later call; the producer publishes nothing more, however many
    turns it is given. *)
Theorem exhausted_script_never_returns (depth : nat) (self : KeyInterface) :
  ki_impl self = SIMULATED →
  (length (ki_script self) ≤ ki_script_position self)%nat →
  ∀ calls : nat,
    let self' :=
      Nat.iter calls (fun s => w_self (async_wait py_float (S depth) s))
        self in
    self' = self ∧
    w_slept (async_wait py_float (S depth) self') = [Fin 99999999] ∧
    (∀ kp, w_outcome (async_wait py_float (S depth) self') ≠ Returned kp) ∧
    ∀ turns p, l_ki (p_listener p) = self' →
      p_queue (produce py_float time_time (S depth) turns p).1 = p_queue p.
Proof.
  intros Himpl Hpos calls.
  assert (Hsame : Nat.iter calls
            (fun s => w_self (async_wait py_float (S depth) s)) self = self).
  { induction calls as [ | calls IH]; [ reflexivity | ].
    rewrite Nat.iter_succ, IH, async_wait_exhausted by assumption.
    reflexivity. }
  cbv zeta. rewrite Hsame.
  rewrite async_wait_exhausted by assumption.
  split; [ reflexivity | split; [ reflexivity | split ] ].
  - intros kp. discriminate.
  - intros turns p Hp. apply produce_exhausted; rewrite Hp; assumption.
Qed.

(** Every turn that completes pushes one entry: the timeline of the
    running producer is always the initial one after some pushes, so the
    bound on the timeline holds throughout the loop. *)
Lemma produce_timeline_pushes (depth turns : nat) (p : Producer) :
  ∃ es, l_tl (p_listener (produce py_float time_time depth turns p).1)
        = pushes es (l_tl (p_listener p)).
Proof.
  revert p. induction turns as [ | turns IH]; intros p; simpl.
  - exists []. reflexivity.
  - destruct (w_outcome (async_wait py_float depth (l_ki (p_listener p))))
      as [keypress | e | | ] eqn:Hout; try (exists []; reflexivity).
    destruct (produce_step time_time (l_listen_for (p_listener p))
                (l_tl (p_listener p)) (p_reads p) keypress)
      as [[[res tl'] reads'] | e] eqn:Hstep; [ | exists []; reflexivity ].
    destruct keypress as [kp | ]; [ | discriminate Hstep ].
    destruct (produce_step_records _ _ _ _ _ _ _ _ Hstep) as [t ->].
    match goal with
    | |- context [produce _ _ _ _ ?q] => destruct (IH q) as [es Hes]
    end.
    exists ((t, kp) :: es). rewrite Hes. reflexivity.
Qed.

(** A transition returned by the scripted source carries a key of the
    registry, hence a finite integral index, and a boolean flag. *)
Lemma async_wait_returns_registered_key (depth : nat) (self : KeyInterface)
    (k : pyfloat) (v : PyVal) :
  ki_impl self = SIMULATED →
  w_outcome (async_wait py_float depth self) = Returned (Some (k, v)) →
  (∃ z, dict_key k = Some z ∧ is_Some (ki_state self !! z)) ∧
  ∃ b, v = PyBool b.
Proof.
  revert self. induction depth as [ | depth IH]; intros self Himpl;
    simpl; [ discriminate | ].
  rewrite Himpl.
  destruct (ki_script self !! ki_script_position self) as [cmd | ];
    [ | discriminate ].
  destruct (py_split cmd) as [ | op [ | arg [ | c l]]]; try discriminate.
  destruct (py_float arg) as [a | ]; [ | discriminate ].
  destruct (String.eqb op "sleep").
  { destruct (asyncio_sleep a); try discriminate.
    simpl. intros H. apply IH in H; [ exact H | exact Himpl ]. }
  unfold key_update. simpl ki_state.
  destruct (String.eqb op "down"); [ | destruct (String.eqb op "up") ];
    try discriminate;
    (destruct (dict_key a) as [z | ] eqn:Hz; [ | discriminate ];
     destruct (ki_state self !! z) as [ks | ] eqn:Hks; [ | discriminate ];
     simpl; intros [= <- <-];
     split; [ exists z; rewrite Hks; eauto | eauto ]).
Qed.

End ScriptedSource.

(** ** The code on concrete inputs *)

(** [example.py]: key 1 is held for 0.2 s and key 0 for 0.6 s; with
    [SINGLE] and [HOLD] listened for, the queue receives an empty marker
    for each press, [(1, SINGLE)] and [(0, HOLD)]; then the script is
    exhausted. *)
Example example_py_run :
  let clock := readings [0; 0.2; 0.2; 1; 1.6; 1.6]%Q in
  let run := produce float_of_string clock 8 10
               (start (example_interface example_script) [SINGLE; HOLD]) in
  p_queue run.1 =
    [NoSequence; Sequence 1 SINGLE; NoSequence; Sequence 0 HOLD] ∧
  run.2 = Stopped IndexError.
Proof. vm_compute. split; reflexivity. Qed.

(** With [SINGLE] alone the long press is published as [(0, SINGLE)]. *)
Example example_py_run_single_only :
  let clock := readings [0; 0.2; 0.2; 1; 1.6; 1.6]%Q in
  let run := produce float_of_string clock 8 10
               (start (example_interface example_script) [SINGLE]) in
  p_queue run.1 =
    [NoSequence; Sequence 1 SINGLE; NoSequence; Sequence 0 SINGLE].
Proof. vm_compute. reflexivity. Qed.

(** A line with an unknown operation returns [None] from [async_wait];
    the producer then fails on [keypress[1]]. *)
Example unknown_operation_returns_None :
  let w := async_wait float_of_string 8 (example_interface ["jump 1"]%string) in
  w_outcome w = Returned None ∧
  (produce float_of_string (readings []) 8 3
     (start (example_interface ["jump 1"]%string) [SINGLE])).2
    = Stopped TypeError.
Proof. vm_compute. split; reflexivity. Qed.

(** A malformed line that follows a [sleep] line is reached by the nested
    call and raises from there. *)
Example malformed_after_sleep :
  let w := async_wait float_of_string 8
             (example_interface ["sleep 0.1"; "down one"; "up 1"]%string) in
  w_slept w = [Fin 0.1%Q] ∧ w_outcome w = Raised ValueError ∧
  ki_script_position (w_self w) = 2%nat.
Proof. vm_compute. repeat split; reflexivity. Qed.

(** Two releases in a row: the second one is measured from the first
    release, 0.1 s earlier, not from the press. *)
Example double_release_run :
  let clock := readings [0; 0.6; 0.6; 0.7; 0.7]%Q in
  let script := ["down 1"; "sleep 0.6"; "up 1"; "sleep 0.1"; "up 1"]%string in
  p_queue (produce float_of_string clock 8 3
             (start (example_interface script) [SINGLE; HOLD])).1
    = [NoSequence; Sequence 1 HOLD; Sequence 1 SINGLE].
Proof. vm_compute. reflexivity. Qed.

(** A release as the first line of a script stops the producer before
    anything is put on the queue. *)
Example release_first_run :
  let run := produce float_of_string (readings [0]%Q) 8 3
               (start (example_interface ["up 1"; "down 1"]%string) [SINGLE]) in
  p_queue run.1 = [] ∧ run.2 = Stopped IndexError.
Proof. vm_compute. split; reflexivity. Qed.

(** ** Instances of the theorems *)

Lemma colourcode_is_lit_spec_witness :
  let ks := mkKeyState (PyBool false) 255 0 16 in
  KeyStateOps.colourcode ks = "ff0010"%string ∧
  String.length (KeyStateOps.colourcode ks) = 6%nat ∧
  (KeyStateOps.is_lit ks = false ↔ 255 = 0 ∧ 0 = 0 ∧ 16 = 0).
Proof.
  apply (colourcode_is_lit_spec (mkKeyState (PyBool false) 255 0 16));
    simpl; lia.
Defined.

Lemma timeline_keeps_newest_50_witness :
  let stamp := fun i : nat => (inject_Z (Z.of_nat i), (Fin 1, PyBool (Nat.even i))) in
  let es := map stamp (seq 0 51) in
  pushes es tl_init = map Some (rev (map stamp (seq 1 50))) ∧
  tl_entries (pushes es tl_init) = rev (map stamp (seq 1 50)) ∧
  (¬ In (stamp 0%nat) (map stamp (seq 1 50)) →
   ¬ In (Some (stamp 0%nat)) (pushes es tl_init)).
Proof.
  intros stamp es.
  destruct (timeline_keeps_newest_50 es) as (_ & _ & _ & _ & H).
  apply (H (stamp 0%nat) (map stamp (seq 1 50))); reflexivity.
Defined.

Lemma single_published_when_not_listened_for_witness :
  let clock := readings [0.2; 0.2]%Q in
  let tl := pushes [(0%Q, (Fin 1, PyBool true))] tl_init in
  listens_for [HOLD] SINGLE = false ∧
  produce_step clock [HOLD] tl 0 (Some (Fin 1, PyBool false)) =
    Ok (Sequence 1 SINGLE,
        tl_appendleft (0.2%Q, (Fin 1, PyBool false)) tl, 2%nat).
Proof.
  split; [ reflexivity | ].
  apply (single_published_when_not_listened_for (readings [0.2; 0.2]%Q)
           [HOLD] (pushes [(0%Q, (Fin 1, PyBool true))] tl_init) 0 1
           (PyBool false) (0%Q, (Fin 1, PyBool true)));
    reflexivity.
Defined.

Lemma release_without_history_raises_witness :
  produce_step (readings [0]%Q) [SINGLE] tl_init 0 (Some (Fin 1, PyBool false))
    = Raise IndexError ∧
  (produce float_of_string (readings [0]%Q) 8 1
     (start (example_interface ["up 1"]%string) [SINGLE])).2
    = Stopped IndexError ∧
  p_queue (produce float_of_string (readings [0]%Q) 8 1
             (start (example_interface ["up 1"]%string) [SINGLE])).1 = [].
Proof.
  destruct (release_without_history_raises float_of_string (readings [0]%Q)
              [SINGLE] tl_init 0 (Fin 1) (PyBool false) eq_refl eq_refl)
    as [Hstep Hloop].
  split; [ exact Hstep | ].
  destruct (Hloop 8%nat 0%nat
              (start (example_interface ["up 1"]%string) [SINGLE])
              eq_refl eq_refl eq_refl eq_refl) as [Hrun Hq].
  rewrite Hrun. split; [ reflexivity | exact Hq ].
Defined.

Lemma duration_from_most_recent_entry_witness :
  let clock := readings [0.7; 0.7]%Q in
  let tl := pushes [(0%Q, (Fin 1, PyBool true))] tl_init in
  published_of (produce_step clock [SINGLE; HOLD] tl 0
                  (Some (Fin 1, PyBool false)))
    = Ok (Sequence 1 HOLD) ∧
  most_recent_press tl (Fin 1) = Some (0%Q, (Fin 1, PyBool true)).
Proof.
  intros clock tl.
  destruct (duration_from_most_recent_entry clock [SINGLE; HOLD] tl 0
              (Fin 1) (PyBool false) (0%Q, (Fin 1, PyBool true))
              eq_refl eq_refl) as (Hstep & _ & Hpress).
  split; [ rewrite Hstep; reflexivity | apply Hpress; reflexivity ].
Defined.

(** C3 as worded fails when the most recent entry for the key is itself a
    release: after a press at 0 s and a release at 0.6 s, a second release
    at 0.7 s is measured from 0.6 s and published as [SINGLE], whereas the
    most recent press, at 0 s, would make it a [HOLD]. *)
Lemma release_after_release_measured_from_release :
  let clock := readings [0.7; 0.7]%Q in
  let press := (0%Q, (Fin 1, PyBool true)) in
  let release := (0.6%Q, (Fin 1, PyBool false)) in
  let tl := pushes [press; release] tl_init in
  most_recent_press tl (Fin 1) = Some press ∧
  most_recent_entry tl (Fin 1) = Some release ∧
  published_of (produce_step clock [SINGLE; HOLD] tl 0
                  (Some (Fin 1, PyBool false)))
    = Ok (Sequence 1 SINGLE) ∧
  classify [SINGLE; HOLD] (Fin 1) (press_duration (clock 0%nat) press)
    = Ok (Sequence 1 HOLD) ∧
  published_of (produce_step clock [SINGLE; HOLD] tl 0
                  (Some (Fin 1, PyBool false)))
    ≠ classify [SINGLE; HOLD] (Fin 1) (press_duration (clock 0%nat) press).
Proof. vm_compute. repeat split; try reflexivity. discriminate. Qed.

Lemma hold_iff_duration_above_500_witness :
  let clock := readings [0.5; 0.5]%Q in
  let tl := pushes [(0%Q, (Fin 1, PyBool true))] tl_init in
  (press_duration (clock 0%nat) (0%Q, (Fin 1, PyBool true)) == 500)%Q ∧
  published_of (produce_step clock [SINGLE; HOLD] tl 0
                  (Some (Fin 1, PyBool false)))
    = Ok (Sequence 1 SINGLE).
Proof.
  intros clock tl.
  assert (Hd : (press_duration (clock 0%nat) (0%Q, (Fin 1, PyBool true))
                == 500)%Q) by reflexivity.
  split; [ exact Hd | ].
  destruct (hold_iff_duration_above_500 clock [SINGLE; HOLD] tl 0 1
              (PyBool false) (0%Q, (Fin 1, PyBool true))
              eq_refl eq_refl eq_refl) as (res & Hstep & _ & _ & Heq).
  rewrite Hstep, (Heq Hd). reflexivity.
Defined.

Lemma malformed_line_raises_ValueError_witness :
  let self := example_interface ["down one"; "up 1"]%string in
  malformed float_of_string "down one" ∧
  async_wait float_of_string 1 self =
    mkWaited [] (with_position self 1) (Raised ValueError) ∧
  (produce float_of_string (readings []) 1 1 (start self [SINGLE])).2
    = Stopped ValueError.
Proof.
  intros self.
  assert (Hbad : malformed float_of_string "down one").
  { right. exists "down"%string, "one"%string. split; reflexivity. }
  split; [ exact Hbad | ].
  destruct (malformed_line_raises_ValueError float_of_string (readings [])
              0 self "down one" eq_refl eq_refl Hbad)
    as (Hw & _ & _ & Hloop).
  split; [ exact Hw | ].
  destruct (Hloop 0%nat (start self [SINGLE]) eq_refl) as [Hrun _].
  rewrite Hrun. reflexivity.
Defined.

Lemma exhausted_script_never_returns_witness :
  let self := with_position (example_interface example_script) 6 in
  w_slept (async_wait float_of_string 1 self) = [Fin 99999999] ∧
  p_queue (produce float_of_string (readings []) 1 5 (start self [SINGLE])).1
    = [].
Proof.
  intros self.
  destruct (exhausted_script_never_returns float_of_string (readings []) 0
              self eq_refl (le_n 6) 0)
    as (_ & Hslept & _ & Hloop).
  split; [ exact Hslept | ].
  apply (Hloop 5%nat (start self [SINGLE]) eq_refl).
Defined.

(** C9 as worded fails: the sleep at an exhausted cursor is finite, and
    when it ends the call raises [IndexError] instead of staying
    suspended.  Here the script holds one line; the second call finds the
    cursor exhausted. *)
Lemma exhausted_poll_wakes_and_raises :
  let w1 := async_wait float_of_string 2
              (example_interface ["down 1"]%string) in
  let w2 := async_wait float_of_string 2 (w_self w1) in
  w_outcome w1 = Returned (Some (Fin 1, PyBool true)) ∧
  w_slept w2 = [Fin 99999999] ∧
  asyncio_sleep (Fin 99999999) = Wakes ∧
  w_outcome w2 = Raised IndexError ∧
  w_outcome w2 ≠ Suspended.
Proof. vm_compute. repeat split; try reflexivity. discriminate. Qed.

(** * Further properties of the code *)

(** ** Hexadecimal colour codes *)

Lemma hex_value_hex_char (d : Z) : 0 ≤ d < 16 → hex_value (hex_char d) = Some d.
Proof.
  intros Hd.
  assert (Hall : forallb (fun n => match hex_value (hex_char (Z.of_nat n)) with
                                   | Some d' => d' =? Z.of_nat n
                                   | None => false
                                   end) (seq 0 16) = true)
    by (vm_compute; reflexivity).
  rewrite forallb_forall in Hall.
  specialize (Hall (Z.to_nat d)). rewrite Z2Nat.id in Hall by lia.
  destruct (hex_value (hex_char d)) as [d' | ];
    [ | discriminate Hall; apply in_seq; lia ].
  f_equal. apply Z.eqb_eq, Hall, in_seq. lia.
Qed.

(** Two hexadecimal digits, in either case, read as the byte they
    write. *)
Lemma int_of_two_hex_digits (c1 c2 : ascii) (d1 d2 : Z) :
  hex_value c1 = Some d1 → hex_value c2 = Some d2 →
  int_of_string 16 (String c1 (String c2 EmptyString)) = Ok (16 * d1 + d2).
Proof.
  assert (Hall : forallb (fun n1 => forallb (fun n2 =>
      match hex_value (ascii_of_nat n1), hex_value (ascii_of_nat n2) with
      | Some e1, Some e2 =>
          match int_of_string 16
                  (String (ascii_of_nat n1)
                     (String (ascii_of_nat n2) EmptyString)) with
          | Ok z => z =? 16 * e1 + e2
          | Raise _ => false
          end
      | _, _ => true
      end) (seq 0 256)) (seq 0 256) = true)
    by (vm_compute; reflexivity).
  intros H1 H2.
  rewrite forallb_forall in Hall.
  specialize (Hall (nat_of_ascii c1)).
  rewrite forallb_forall in Hall.
  specialize (Hall ltac:(apply in_seq; pose proof (nat_ascii_bounded c1); lia)
                (nat_of_ascii c2)
                ltac:(apply in_seq; pose proof (nat_ascii_bounded c2); lia)).
  rewrite !ascii_nat_embedding, H1, H2 in Hall.
  destruct (int_of_string 16 (String c1 (String c2 EmptyString))) as [z | e];
    [ | discriminate ].
  f_equal. apply Z.eqb_eq, Hall.
Qed.

Lemma hex_value_range (c : ascii) (d : Z) : hex_value c = Some d → 0 ≤ d < 16.
Proof.
  unfold hex_value.
  repeat match goal with
         | |- context [if ?b then _ else _] => destruct b eqn:?
         end; intros [= <-];
    repeat match goal with
           | H : (_ && _)%bool = true |- _ =>
               apply andb_prop in H as [?%Nat.leb_le ?%Nat.leb_le]
           end; lia.
Qed.

Lemma int_of_string_raises_ValueError (base : Z) (s : string) (e : Exn) :
  int_of_string base s = Raise e → e = ValueError.
Proof.
  unfold int_of_string.
  destruct (read_sign (strip (list_ascii_of_string s))) as [neg body].
  destruct (digit_run base (if base =? 16 then skip_prefix16 body else body))
    as [[ | d ds] [ | c rest]]; intros [= <-]; reflexivity.
Qed.

Lemma substring_beyond (i m : nat) (s : string) :
  (String.length s ≤ i)%nat → substring i m s = EmptyString.
Proof.
  revert i. induction s as [ | c s IH]; intros [ | i] Hlen; simpl in *;
    try reflexivity; try lia.
  - destruct m; reflexivity.
  - apply IH. lia.
Qed.

Lemma from_hexcode_digits (c1 c2 c3 c4 c5 c6 : ascii)
    (d1 d2 d3 d4 d5 d6 : Z) (extra : string) :
  hex_value c1 = Some d1 → hex_value c2 = Some d2 →
  hex_value c3 = Some d3 → hex_value c4 = Some d4 →
  hex_value c5 = Some d5 → hex_value c6 = Some d6 →
  from_hexcode
    (String c1 (String c2 (String c3 (String c4 (String c5 (String c6 extra))))))
    = Ok (16 * d1 + d2, 16 * d3 + d4, 16 * d5 + d6).
Proof.
  intros H1 H2 H3 H4 H5 H6.
  unfold from_hexcode, py_slice. cbn [substring Nat.sub].
  assert (Hcut : ∀ s, substring 0 0 s = EmptyString) by (intros []; reflexivity).
  rewrite !Hcut.
  rewrite (int_of_two_hex_digits _ _ _ _ H1 H2),
    (int_of_two_hex_digits _ _ _ _ H3 H4),
    (int_of_two_hex_digits _ _ _ _ H5 H6).
  reflexivity.
Qed.

(** X1: six hexadecimal digits, in either case, decode to the three bytes
    they write, each between 0 and 255; whatever follows the sixth
    character is ignored. *)
Theorem from_hexcode_six_digits (c1 c2 c3 c4 c5 c6 : ascii)
    (d1 d2 d3 d4 d5 d6 : Z) (extra : string) :
  hex_value c1 = Some d1 → hex_value c2 = Some d2 →
  hex_value c3 = Some d3 → hex_value c4 = Some d4 →
  hex_value c5 = Some d5 → hex_value c6 = Some d6 →
  from_hexcode
    (String c1 (String c2 (String c3 (String c4 (String c5 (String c6 extra))))))
    = Ok (16 * d1 + d2, 16 * d3 + d4, 16 * d5 + d6) ∧
  0 ≤ 16 * d1 + d2 ≤ 255 ∧ 0 ≤ 16 * d3 + d4 ≤ 255 ∧ 0 ≤ 16 * d5 + d6 ≤ 255.
Proof.
  intros H1 H2 H3 H4 H5 H6. split.
  - apply from_hexcode_digits; assumption.
  - apply hex_value_range in H1, H2, H3, H4, H5, H6. lia.
Qed.

Lemma from_hexcode_colourcode_eq (ks : KeyState) :
  0 ≤ ks_r ks ≤ 255 → 0 ≤ ks_g ks ≤ 255 → 0 ≤ ks_b ks ≤ 255 →
  from_hexcode (KeyStateOps.colourcode ks) = Ok (ks_r ks, ks_g ks, ks_b ks).
Proof.
  intros Hr Hg Hb.
  unfold KeyStateOps.colourcode, KeyStateOps.r, KeyStateOps.g, KeyStateOps.b.
  rewrite !format_02x_byte by assumption.
  unfold hex_byte.
  assert (Hd : ∀ z, 0 ≤ z ≤ 255 → 0 ≤ z / 16 < 16 ∧ 0 ≤ z mod 16 < 16 ∧
                                   16 * (z / 16) + z mod 16 = z).
  { intros z Hz. repeat split; try apply Z.div_pos; try lia.
    - apply Z.div_lt_upper_bound; lia.
    - apply Z.mod_pos_bound; lia.
    - apply Z.mod_pos_bound; lia.
    - symmetry. apply Z.div_mod. lia. }
  destruct (Hd _ Hr) as (? & ? & Er), (Hd _ Hg) as (? & ? & Eg),
    (Hd _ Hb) as (? & ? & Eb).
  pose proof (from_hexcode_digits
              (hex_char (ks_r ks / 16)) (hex_char (ks_r ks mod 16))
              (hex_char (ks_g ks / 16)) (hex_char (ks_g ks mod 16))
              (hex_char (ks_b ks / 16)) (hex_char (ks_b ks mod 16))
              (ks_r ks / 16) (ks_r ks mod 16) (ks_g ks / 16) (ks_g ks mod 16)
              (ks_b ks / 16) (ks_b ks mod 16) EmptyString) as Hdec.
  rewrite !hex_value_hex_char in Hdec by assumption.
  specialize (Hdec eq_refl eq_refl eq_refl eq_refl eq_refl eq_refl).
  rewrite Er, Eg, Eb in Hdec. exact Hdec.
Qed.

(** X2: [colourcode] and [_from_hexcode] are inverse on channels between
    0 and 255. *)
Theorem from_hexcode_colourcode (ks : KeyState) :
  0 ≤ ks_r ks ≤ 255 → 0 ≤ ks_g ks ≤ 255 → 0 ≤ ks_b ks ≤ 255 →
  from_hexcode (KeyStateOps.colourcode ks) = Ok (ks_r ks, ks_g ks, ks_b ks).
Proof. apply from_hexcode_colourcode_eq. Qed.

(** X3: [_from_hexcode] raises nothing but [ValueError], and raises it for
    every code of fewer than five characters. *)
Theorem from_hexcode_errors (code : string) :
  (∀ e, from_hexcode code = Raise e → e = ValueError) ∧
  ((String.length code ≤ 4)%nat → from_hexcode code = Raise ValueError).
Proof.
  assert (Hany : ∀ e, from_hexcode code = Raise e → e = ValueError).
  { unfold from_hexcode. intros e.
    destruct (int_of_string 16 (py_slice code 0 2)) as [r | e1] eqn:E1; simpl.
    - destruct (int_of_string 16 (py_slice code 2 4)) as [g | e2] eqn:E2; simpl.
      + destruct (int_of_string 16 (py_slice code 4 6)) as [b | e3] eqn:E3;
          simpl; [ discriminate | ].
        intros [= <-]. eapply int_of_string_raises_ValueError, E3.
      + intros [= <-]. eapply int_of_string_raises_ValueError, E2.
    - intros [= <-]. eapply int_of_string_raises_ValueError, E1. }
  split; [ exact Hany | ].
  intros Hlen.
  assert (H3 : int_of_string 16 (py_slice code 4 6) = Raise ValueError).
  { unfold py_slice. rewrite substring_beyond by exact Hlen. reflexivity. }
  destruct (from_hexcode code) as [[[r g] b] | e] eqn:E.
  - exfalso. unfold from_hexcode in E. rewrite H3 in E.
    destruct (int_of_string 16 (py_slice code 0 2)); simpl in E;
      [ | discriminate ].
    destruct (int_of_string 16 (py_slice code 2 4)); simpl in E;
      discriminate.
  - f_equal. apply Hany. reflexivity.
Qed.

(** ** Colour channels of a key state *)

Lemma channel_spec (v : PyVal) :
  KeyStateColour.channel v =
  match v with
  | PyNone | PyClass _ => Raise KeyStateError
  | PyBool b => Ok (if b then 1 else 0)
  | PyInt z => Ok z
  | PyFloat (Fin q) => Ok (Qtrunc q)
  | PyFloat NaN => Raise ValueError
  | PyFloat _ => Raise OverflowError
  | PyStr s => match int_of_string 10 s with
               | Ok z => Ok z
               | Raise _ => Raise ValueError
               end
  end.
Proof.
  unfold KeyStateColour.channel.
  destruct v as [ | b | z | [q | | | ] | s | t]; try reflexivity.
  simpl. destruct (int_of_string 10 s) as [z | e] eqn:E; [ reflexivity | ].
  apply int_of_string_raises_ValueError in E as ->. reflexivity.
Qed.

Lemma py_int_never_KeyStateError (v : PyVal) :
  py_int v ≠ Raise KeyStateError.
Proof.
  destruct v as [ | b | z | [q | | | ] | s | t]; simpl; try discriminate.
  intros H. apply int_of_string_raises_ValueError in H. discriminate.
Qed.

Lemma channel_cases (v : PyVal) :
  (KeyStateColour.channel v = Raise KeyStateError ↔ py_int v = Raise TypeError) ∧
  (∀ z, py_int v = Ok z → KeyStateColour.channel v = Ok z) ∧
  (∀ e, py_int v = Raise e → e ≠ TypeError →
        KeyStateColour.channel v = Raise e).
Proof.
  unfold KeyStateColour.channel.
  pose proof (py_int_never_KeyStateError v) as Hnot.
  destruct (py_int v) as [z | e].
  - split; [ split; discriminate | split; [ intros ? [= <-]; reflexivity | ] ].
    discriminate.
  - split; [ | split; [ discriminate | ] ].
    + destruct e; split; try discriminate; try reflexivity.
      intros _. contradiction.
    + intros e' [= <-] Hne. destruct e; try reflexivity. contradiction.
Qed.

(** X4: each of the setters of [r], [g] and [b] raises [KeyStateError]
    exactly when [int(var)] raises [TypeError]; when [int(var)] returns,
    the setter stores that integer in its own channel and changes nothing
    else, with no check of the range; any other exception of [int(var)]
    goes through as it is.  So an integer is stored unchanged, [True] and
    [False] as 1 and 0, a finite float truncated towards zero; [None] and
    a class give [KeyStateError], NaN [ValueError] and the infinities
    [OverflowError]. *)
Theorem colour_setter_conversion (ks : KeyState) (v : PyVal) :
  ((KeyStateColour.set_r ks v = Raise KeyStateError ↔ py_int v = Raise TypeError) ∧
   (KeyStateColour.set_g ks v = Raise KeyStateError ↔ py_int v = Raise TypeError) ∧
   (KeyStateColour.set_b ks v = Raise KeyStateError ↔ py_int v = Raise TypeError)) ∧
  (∀ z, py_int v = Ok z →
     KeyStateColour.set_r ks v = Ok (with_colour ks z (ks_g ks) (ks_b ks)) ∧
     KeyStateColour.set_g ks v = Ok (with_colour ks (ks_r ks) z (ks_b ks)) ∧
     KeyStateColour.set_b ks v = Ok (with_colour ks (ks_r ks) (ks_g ks) z)) ∧
  (∀ e, py_int v = Raise e → e ≠ TypeError →
     KeyStateColour.set_r ks v = Raise e ∧
     KeyStateColour.set_g ks v = Raise e ∧
     KeyStateColour.set_b ks v = Raise e) ∧
  (∀ z, py_int (PyInt z) = Ok z) ∧
  (∀ b : bool, py_int (PyBool b) = Ok (if b then 1 else 0)) ∧
  (∀ q, py_int (PyFloat (Fin q)) = Ok (Qtrunc q)) ∧
  py_int PyNone = Raise TypeError ∧
  (∀ t, py_int (PyClass t) = Raise TypeError) ∧
  py_int (PyFloat NaN) = Raise ValueError ∧
  py_int (PyFloat PosInf) = Raise OverflowError ∧
  py_int (PyFloat NegInf) = Raise OverflowError.
Proof.
  destruct (channel_cases v) as (Hiff & Hok & Herr).
  unfold KeyStateColour.set_r, KeyStateColour.set_g, KeyStateColour.set_b.
  split; [ | split; [ | split; [ | repeat split ] ] ].
  - destruct (KeyStateColour.channel v) as [z | e]; simpl; repeat split;
      intros H; try discriminate H.
    all: try (apply Hiff in H; discriminate H).
    all: try (injection H as ->; apply Hiff; reflexivity).
    all: apply Hiff in H; injection H as ->; reflexivity.
  - intros z Hz. rewrite (Hok z Hz). repeat split.
  - intros e He Hne. rewrite (Herr e He Hne). repeat split.
Qed.

(** [set_colour] is not atomic: the channels assigned before a refused
    argument keep their new values. *)
Lemma set_colour_partial (ks : KeyState) (r g b : PyVal) :
  (∀ e, KeyStateColour.channel r = Raise e →
        KeyStateColour.set_colour ks r g b = Failed ks e) ∧
  (∀ zr e, KeyStateColour.channel r = Ok zr →
           KeyStateColour.channel g = Raise e →
           KeyStateColour.set_colour ks r g b
             = Failed (with_colour ks zr (ks_g ks) (ks_b ks)) e) ∧
  (∀ zr zg e, KeyStateColour.channel r = Ok zr →
              KeyStateColour.channel g = Ok zg →
              KeyStateColour.channel b = Raise e →
              KeyStateColour.set_colour ks r g b
                = Failed (with_colour ks zr zg (ks_b ks)) e) ∧
  (∀ zr zg zb, KeyStateColour.channel r = Ok zr →
               KeyStateColour.channel g = Ok zg →
               KeyStateColour.channel b = Ok zb →
               KeyStateColour.set_colour ks r g b
                 = Done (with_colour ks zr zg zb)).
Proof.
  unfold KeyStateColour.set_colour, KeyStateColour.set_r,
    KeyStateColour.set_g, KeyStateColour.set_b.
  repeat split; intros; repeat match goal with
                               | H : KeyStateColour.channel _ = _ |- _ =>
                                   rewrite H; clear H
                               end; reflexivity.
Qed.

(** ** LED operations of the interface *)

Lemma bd_ki_driver_call (w : Board) (c : DriverCall) :
  bd_ki (driver_call w c) = bd_ki w.
Proof. unfold driver_call. destruct (is_keybow (bd_ki w)); reflexivity. Qed.

Lemma bd_calls_driver_call (w : Board) (c : DriverCall) :
  bd_calls (driver_call w c)
    = bd_calls w ++ (if is_keybow (bd_ki w) then [c] else []).
Proof.
  unfold driver_call. destruct (is_keybow (bd_ki w)); simpl;
    [ reflexivity | now rewrite app_nil_r ].
Qed.

Lemma set_led_done (w : Board) (idx : pyfloat) (r g b : PyVal) (k : Z)
    (ks ks' : KeyState) :
  state_at (bd_ki w) idx = Some (k, ks) →
  KeyStateColour.set_colour ks r g b = Done ks' →
  set_led w idx r g b =
    Done (mkBoard (with_key_state (bd_ki w) k ks')
            (bd_calls w ++ led_calls (bd_ki w) idx r g b)).
Proof.
  intros Hat Hcol. unfold set_led, show, led_calls.
  rewrite bd_ki_driver_call, Hat, Hcol.
  unfold driver_call. destruct (is_keybow (bd_ki w)) eqn:Hk; simpl.
  - unfold is_keybow in *. simpl. rewrite Hk, <- app_assoc. reflexivity.
  - unfold is_keybow in *. simpl. rewrite Hk, app_nil_r. reflexivity.
Qed.

(** X5: [set_led] on a registered key with three acceptable channels
    stores the converted colour under that key, keeps the pressed flag,
    leaves every other key alone and, when there is a driver, calls its
    [set_led] and then its [show]. *)
Theorem set_led_registered (w : Board) (idx : pyfloat) (r g b : PyVal)
    (k : Z) (ks : KeyState) (zr zg zb : Z) :
  state_at (bd_ki w) idx = Some (k, ks) →
  KeyStateColour.channel r = Ok zr →
  KeyStateColour.channel g = Ok zg →
  KeyStateColour.channel b = Ok zb →
  ∃ w', set_led w idx r g b = Done w' ∧
        ki_state (bd_ki w') !! k = Some (with_colour ks zr zg zb) ∧
        (∀ k', k' ≠ k → ki_state (bd_ki w') !! k' = ki_state (bd_ki w) !! k') ∧
        bd_calls w' = bd_calls w ++ led_calls (bd_ki w) idx r g b.
Proof.
  intros Hat Hr Hg Hb.
  destruct (set_colour_partial ks r g b) as (_ & _ & _ & Hall).
  eexists. split; [ apply (set_led_done _ _ _ _ _ _ _ _ Hat (Hall _ _ _ Hr Hg Hb)) | ].
  simpl. split; [ apply lookup_insert_eq | split; [ | reflexivity ] ].
  intros k' Hne. apply lookup_insert_ne. congruence.
Qed.

(** X6: when [set_led] fails, what was done before the failure stays
    done.  For an index that is not in the registry it raises [KeyError]
    after the driver, if any, has been given the colour.  For a blue
    channel that is refused, the key keeps the new red and green with its
    old blue, and [show] is not reached. *)
Theorem set_led_failures (w : Board) (idx : pyfloat) (r g b : PyVal) :
  (state_at (bd_ki w) idx = None →
   set_led w idx r g b =
     Failed (mkBoard (bd_ki w)
               (bd_calls w ++ (if is_keybow (bd_ki w)
                               then [DrvSetLed idx r g b] else [])))
       KeyError) ∧
  (∀ k ks zr zg e,
     state_at (bd_ki w) idx = Some (k, ks) →
     KeyStateColour.channel r = Ok zr →
     KeyStateColour.channel g = Ok zg →
     KeyStateColour.channel b = Raise e →
     set_led w idx r g b =
       Failed (mkBoard (with_key_state (bd_ki w) k
                          (with_colour ks zr zg (ks_b ks)))
                 (bd_calls w ++ (if is_keybow (bd_ki w)
                                 then [DrvSetLed idx r g b] else [])))
         e).
Proof.
  split.
  - intros Hat. unfold set_led. rewrite bd_ki_driver_call, Hat.
    unfold driver_call. destruct (is_keybow (bd_ki w)); [ reflexivity | ].
    destruct w; simpl. rewrite app_nil_r. reflexivity.
  - intros k ks zr zg e Hat Hr Hg Hb.
    destruct (set_colour_partial ks r g b) as (_ & _ & Hpart & _).
    unfold set_led.
    rewrite bd_ki_driver_call, Hat, (Hpart _ _ _ Hr Hg Hb),
      bd_calls_driver_call.
    reflexivity.
Qed.

Lemma dict_key_int (k : Z) : dict_key (Fin (inject_Z k)) = Some k.
Proof.
  unfold dict_key, Q_is_integer. rewrite Qfloor_Z.
  rewrite (proj2 (Qeq_bool_iff _ _) (Qeq_refl _)). reflexivity.
Qed.

Lemma state_at_int (self : KeyInterface) (k : Z) (ks : KeyState) :
  ki_state self !! k = Some ks →
  state_at self (Fin (inject_Z k)) = Some (k, ks).
Proof. intros H. unfold state_at. rewrite dict_key_int, H. reflexivity. Qed.

Lemma set_colour_zero (ks : KeyState) :
  KeyStateColour.set_colour ks (PyInt 0) (PyInt 0) (PyInt 0)
    = Done (switched_off ks).
Proof. reflexivity. Qed.

Lemma is_lit_switched_off (ks : KeyState) :
  KeyStateOps.is_lit (switched_off ks) = false.
Proof. reflexivity. Qed.

(** X7: [led_on] with the colour code of in-range channels makes a
    registered key show exactly that code; with a code that does not
    decode it raises before anything is written or sent to the driver. *)
Theorem led_on_colourcode (w : Board) (idx : pyfloat) (k : Z)
    (ks c : KeyState) :
  state_at (bd_ki w) idx = Some (k, ks) →
  0 ≤ ks_r c ≤ 255 → 0 ≤ ks_g c ≤ 255 → 0 ≤ ks_b c ≤ 255 →
  (∃ w', led_on w idx (KeyStateOps.colourcode c) = Done w' ∧
         ki_state (bd_ki w') !! k
           = Some (with_colour ks (ks_r c) (ks_g c) (ks_b c)) ∧
         (KeyStateOps.colourcode <$> ki_state (bd_ki w') !! k)
           = Some (KeyStateOps.colourcode c) ∧
         (KeyStateOps.pressed <$> ki_state (bd_ki w') !! k)
           = Some (KeyStateOps.pressed ks)) ∧
  (∀ code e, from_hexcode code = Raise e → led_on w idx code = Failed w e).
Proof.
  intros Hat Hr Hg Hb. split.
  - unfold led_on. rewrite from_hexcode_colourcode_eq by assumption.
    rewrite (set_led_done w idx (PyInt (ks_r c)) (PyInt (ks_g c))
               (PyInt (ks_b c)) k ks
               (with_colour ks (ks_r c) (ks_g c) (ks_b c)) Hat eq_refl).
    eexists. split; [ reflexivity | ].
    simpl. rewrite lookup_insert_eq. simpl.
    unfold KeyStateOps.colourcode, KeyStateOps.r, KeyStateOps.g, KeyStateOps.b.
    repeat split; reflexivity.
  - intros code e He. unfold led_on. rewrite He. reflexivity.
Qed.

(** X8: [led_toggle] switches a lit key off whatever [hexcode] is; on an
    unlit key it needs a non-empty [hexcode], and without one it raises
    [LEDInterfaceError] and changes nothing; an index outside the registry
    raises [KeyError]. *)
Theorem led_toggle_cases (w : Board) (idx : pyfloat)
    (hexcode : option string) :
  (state_at (bd_ki w) idx = None →
   led_toggle w idx hexcode = Failed w KeyError) ∧
  (∀ k ks, state_at (bd_ki w) idx = Some (k, ks) →
     (KeyStateOps.is_lit ks = true →
      led_toggle w idx hexcode =
        Done (mkBoard (with_key_state (bd_ki w) k (switched_off ks))
                (bd_calls w
                 ++ led_calls (bd_ki w) idx (PyInt 0) (PyInt 0) (PyInt 0))) ∧
      KeyStateOps.is_lit (switched_off ks) = false) ∧
     (KeyStateOps.is_lit ks = false →
      (hexcode = None ∨ hexcode = Some EmptyString →
       led_toggle w idx hexcode = Failed w LEDInterfaceError) ∧
      (∀ code, hexcode = Some code → code ≠ EmptyString →
       led_toggle w idx hexcode = led_on w idx code))).
Proof.
  unfold led_toggle. split.
  - intros ->. reflexivity.
  - intros k ks Hat. rewrite Hat. split.
    + intros ->. split; [ | reflexivity ].
      unfold led_off.
      apply (set_led_done w idx _ _ _ k ks (switched_off ks) Hat),
        set_colour_zero.
    + intros ->. split.
      * intros [-> | ->]; reflexivity.
      * intros code -> Hne. destruct code; [ contradiction | reflexivity ].
Qed.

Section KeyLoop.

(** A loop over the keys of the registry whose body switches one key
    off. *)
Variable step : Board → Z → effect Board.
Variable calls_of : bool → Z → list DriverCall.

Hypothesis step_registered : ∀ w k ks,
  ki_state (bd_ki w) !! k = Some ks →
  step w k =
    Done (mkBoard (with_key_state (bd_ki w) k (switched_off ks))
            (bd_calls w ++ calls_of (is_keybow (bd_ki w)) k)).

Lemma key_loop (l : list Z) (w : Board) :
  (∀ k, k ∈ l → is_Some (ki_state (bd_ki w) !! k)) →
  ∃ w', fold_left (fun acc k => and_then acc (fun w0 => step w0 k)) l (Done w)
          = Done w' ∧
        (∀ j, ki_state (bd_ki w') !! j =
              if decide (j ∈ l) then switched_off <$> ki_state (bd_ki w) !! j
              else ki_state (bd_ki w) !! j) ∧
        bd_calls w' = bd_calls w ++ flat_map (calls_of (is_keybow (bd_ki w))) l ∧
        ki_impl (bd_ki w') = ki_impl (bd_ki w) ∧
        ki_last_press (bd_ki w') = ki_last_press (bd_ki w) ∧
        ki_script (bd_ki w') = ki_script (bd_ki w) ∧
        ki_script_position (bd_ki w') = ki_script_position (bd_ki w).
Proof using step_registered.
  revert w. induction l as [ | k l IH]; intros w Hreg.
  - exists w. simpl. rewrite app_nil_r.
    split; [ reflexivity | split; [ | repeat split; reflexivity ] ].
    intros j. destruct (decide (j ∈ [])) as [Hin | _]; [ | reflexivity ].
    now apply elem_of_nil in Hin.
  - destruct (Hreg k ltac:(left)) as [ks Hks].
    simpl fold_left. simpl and_then. rewrite (step_registered _ _ _ Hks).
    edestruct (IH (mkBoard (with_key_state (bd_ki w) k (switched_off ks))
                     (bd_calls w ++ calls_of (is_keybow (bd_ki w)) k)))
      as (w' & Hfold & Hlook & Hcalls & Himpl & Hlast & Hscr & Hpos).
    { intros k' Hk'. simpl. apply lookup_insert_is_Some'.
      right. apply Hreg. now right. }
    exists w'. split; [ exact Hfold | ].
    split; [ | split; [ | simpl in *; repeat split; assumption ] ].
    + intros j. rewrite Hlook. simpl.
      destruct (decide (j = k)) as [-> | Hne].
      * rewrite lookup_insert_eq, Hks.
        destruct (decide (k ∈ l)), (decide (k ∈ k :: l)) as [ | Hn];
          try reflexivity; exfalso; apply Hn; left.
      * rewrite lookup_insert_ne by congruence.
        destruct (decide (j ∈ l)) as [Hin | Hnin],
          (decide (j ∈ k :: l)) as [Hin' | Hnin']; try reflexivity.
        -- exfalso. apply Hnin'. now right.
        -- exfalso. apply elem_of_cons in Hin' as [ | ]; congruence.
    + rewrite Hcalls. simpl. rewrite <- app_assoc. reflexivity.
Qed.

End KeyLoop.

Lemma registry_keys_dom (self : KeyInterface) (k : Z) :
  k ∈ registry_keys self ↔ is_Some (ki_state self !! k).
Proof.
  unfold registry_keys. rewrite merge_sort_Permutation, elem_of_elements.
  apply elem_of_dom.
Qed.

Lemma key_loop_all (self : KeyInterface) (m : gmap Z KeyState) :
  (∀ j, m !! j = if decide (j ∈ registry_keys self)
                 then switched_off <$> ki_state self !! j
                 else ki_state self !! j) →
  m = switched_off <$> ki_state self.
Proof.
  intros H. apply map_eq. intros j. rewrite H, lookup_fmap.
  destruct (decide (j ∈ registry_keys self)) as [ | Hn]; [ reflexivity | ].
  rewrite registry_keys_dom in Hn.
  destruct (ki_state self !! j); [ | reflexivity ].
  exfalso. apply Hn. eauto.
Qed.

Lemma all_leds_off_done (w : Board) :
  ∃ w', all_leds_off w = Done w' ∧
        ki_state (bd_ki w') = switched_off <$> ki_state (bd_ki w) ∧
        bd_calls w' =
          bd_calls w ++
          flat_map (fun k => led_calls (bd_ki w) (Fin (inject_Z k))
                               (PyInt 0) (PyInt 0) (PyInt 0))
            (registry_keys (bd_ki w)).
Proof.
  destruct (key_loop
              (fun w0 k => set_led w0 (Fin (inject_Z k)) (PyInt 0) (PyInt 0) (PyInt 0))
              (fun b k => if b then [DrvSetLed (Fin (inject_Z k)) (PyInt 0)
                                       (PyInt 0) (PyInt 0); DrvShow]
                          else [])
              ltac:(intros w0 k ks Hks;
                    apply (set_led_done _ _ _ _ _ _ _ _ (state_at_int _ _ _ Hks)),
                      set_colour_zero)
              (registry_keys (bd_ki w)) w)
    as (w' & Hfold & Hlook & Hcalls & _).
  { intros k. apply registry_keys_dom. }
  exists w'. split; [ exact Hfold | ].
  apply key_loop_all in Hlook.
  split; [ exact Hlook | exact Hcalls ].
Qed.

(** X9: [all_leds_off] always completes; afterwards every key of the
    registry is unlit with its pressed flag as before, and a driver, if
    there is one, has received [set_led(idx, 0, 0, 0)] and [show] once per
    key, in the order of the keys. *)
Theorem all_leds_off_registry (w : Board) :
  ∃ w', all_leds_off w = Done w' ∧
        ki_state (bd_ki w') = switched_off <$> ki_state (bd_ki w) ∧
        (∀ k ks, ki_state (bd_ki w') !! k = Some ks →
                 KeyStateOps.is_lit ks = false) ∧
        bd_calls w' =
          bd_calls w ++
          flat_map (fun k => led_calls (bd_ki w) (Fin (inject_Z k))
                               (PyInt 0) (PyInt 0) (PyInt 0))
            (registry_keys (bd_ki w)).
Proof.
  destruct (all_leds_off_done w) as (w' & Hrun & Hlook & Hcalls).
  exists w'. split; [ exact Hrun | ].
  split; [ exact Hlook | split; [ | exact Hcalls ] ].
  intros k ks. rewrite Hlook, lookup_fmap.
  destruct (ki_state (bd_ki w) !! k); intros [= <-]. reflexivity.
Qed.

(** X10: [clear] always completes and leaves the same registry as
    [all_leds_off], every key unlit with its pressed flag kept, but tells
    the driver once, with [clear]. *)
Theorem clear_registry (w : Board) :
  ∃ w', clear w = Done w' ∧
        ki_state (bd_ki w') = switched_off <$> ki_state (bd_ki w) ∧
        bd_calls w' =
          bd_calls w ++ (if is_keybow (bd_ki w) then [DrvClear] else []) ∧
        ki_state (bd_ki w') = ki_state (bd_ki (state_after (all_leds_off w))).
Proof.
  destruct (key_loop clear_key (fun _ _ => [])
              ltac:(intros w0 k ks Hks; unfold clear_key; rewrite Hks;
                    simpl; rewrite app_nil_r; reflexivity)
              (registry_keys (bd_ki w)) (driver_call w DrvClear))
    as (w' & Hfold & Hlook & Hcalls & _).
  { intros k. rewrite bd_ki_driver_call. apply registry_keys_dom. }
  assert (Hlook' : ∀ j, ki_state (bd_ki w') !! j =
            if decide (j ∈ registry_keys (bd_ki w))
            then switched_off <$> ki_state (bd_ki w) !! j
            else ki_state (bd_ki w) !! j).
  { intros j. rewrite (Hlook j), bd_ki_driver_call. reflexivity. }
  clear Hlook. rename Hlook' into Hlook.
  exists w'. split; [ exact Hfold | ].
  apply key_loop_all in Hlook.
  split; [ exact Hlook | split ].
  - rewrite Hcalls, bd_calls_driver_call.
    assert (Hnil : ∀ l : list Z, flat_map (fun _ : Z => @nil DriverCall) l = [])
      by (induction l; [ reflexivity | assumption ]).
    rewrite Hnil, app_nil_r. reflexivity.
  - destruct (all_leds_off_done w) as (w2 & -> & Hoff & _).
    simpl. rewrite Hoff. exact Hlook.
Qed.

(** ** The registry *)

Lemma fresh_states_lookup (n : nat) (k : Z) :
  fresh_states n !! k =
  if decide (0 ≤ k < Z.of_nat n) then Some KeyState_init else None.
Proof.
  induction n as [ | n IH]; simpl.
  - rewrite lookup_empty. destruct (decide (0 ≤ k < Z.of_nat 0)); [ lia | reflexivity ].
  - destruct (decide (k = Z.of_nat n)) as [-> | Hne].
    + rewrite lookup_insert_eq.
      destruct (decide (0 ≤ Z.of_nat n < Z.of_nat (S n))); [ reflexivity | lia ].
    + rewrite lookup_insert_ne by congruence. rewrite IH.
      destruct (decide (0 ≤ k < Z.of_nat n)),
        (decide (0 ≤ k < Z.of_nat (S n))); try reflexivity; lia.
Qed.

(** X11: [setup] gives every index of [range(keycount)] a fresh key
    state, also one that was pressed or lit before, keeps the keys beyond
    the range, and takes a script only when it is not empty; the cursor
    and the mailbox stay as they are. *)
Theorem setup_registry (self : KeyInterface) (keycount : nat)
    (script : list string) :
  (∀ k, ki_state (setup self keycount script) !! k =
        if decide (0 ≤ k < Z.of_nat keycount) then Some KeyState_init
        else ki_state self !! k) ∧
  ki_script (setup self keycount script)
    = (if decide (script = []) then ki_script self else script) ∧
  ki_script_position (setup self keycount script) = ki_script_position self ∧
  ki_last_press (setup self keycount script) = ki_last_press self ∧
  ki_impl (setup self keycount script) = ki_impl self.
Proof.
  split; [ | split; [ destruct script; reflexivity | repeat split ] ].
  intros k. simpl. rewrite lookup_union, fresh_states_lookup.
  destruct (decide (0 ≤ k < Z.of_nat keycount)).
  - destruct (ki_state self !! k); reflexivity.
  - destruct (ki_state self !! k); reflexivity.
Qed.

Lemma set_pressed_inv (ks ks' : KeyState) (v : PyVal) :
  KeyStateOps.set_pressed ks v = Ok ks' →
  py_in v [PyBool true; PyBool false] = true ∧ ks' = with_pressed ks v.
Proof.
  unfold KeyStateOps.set_pressed.
  destruct (py_in v [PyBool true; PyBool false]); simpl;
    [ intros [= <-]; split; reflexivity | discriminate ].
Qed.

Lemma key_update_inv (self self' : KeyInterface) (idx : pyfloat) (st : PyVal) :
  key_update self idx st = Ok self' →
  ∃ k ks, state_at self idx = Some (k, ks) ∧
          py_in st [PyBool true; PyBool false] = true ∧
          self' = mkKeyInterface (ki_impl self)
                    (<[k := with_pressed ks st]> (ki_state self))
                    (Some (idx, st)) (ki_script self)
                    (ki_script_position self).
Proof.
  unfold key_update, state_at.
  destruct (dict_key idx) as [k | ]; [ | discriminate ].
  destruct (ki_state self !! k) as [ks | ]; [ | discriminate ].
  destruct (KeyStateOps.set_pressed ks st) as [ks' | e] eqn:E; simpl;
    [ | discriminate ].
  apply set_pressed_inv in E as [Hin ->].
  intros [= <-]. exists k, ks. repeat split. exact Hin.
Qed.

Lemma key_update_ok (self : KeyInterface) (idx : pyfloat) (st : PyVal)
    (k : Z) (ks : KeyState) :
  state_at self idx = Some (k, ks) →
  py_in st [PyBool true; PyBool false] = true →
  key_update self idx st =
    Ok (mkKeyInterface (ki_impl self)
          (<[k := with_pressed ks st]> (ki_state self))
          (Some (idx, st)) (ki_script self) (ki_script_position self)).
Proof.
  unfold key_update, state_at.
  destruct (dict_key idx) as [k' | ]; [ | discriminate ].
  destruct (ki_state self !! k') as [ks' | ]; [ | discriminate ].
  intros [= -> ->] Hin. unfold KeyStateOps.set_pressed. rewrite Hin.
  reflexivity.
Qed.

Lemma key_update_missing (self : KeyInterface) (idx : pyfloat) (st : PyVal) :
  state_at self idx = None → key_update self idx st = Raise KeyError.
Proof.
  unfold key_update, state_at.
  destruct (dict_key idx) as [k | ]; [ | reflexivity ].
  destruct (ki_state self !! k); [ discriminate | reflexivity ].
Qed.

(** X12: [key_update] succeeds exactly for an index that equals an
    integer key of the registry and a state equal to [True] or [False];
    it then replaces the pressed flag of that key alone, keeps its colour
    and the set of keys, and leaves the transition in the mailbox.  An
    index that matches no key, such as 1.5, NaN or an infinity, raises
    [KeyError]. *)
Theorem key_update_registry (self : KeyInterface) (idx : pyfloat)
    (st : PyVal) :
  (∀ self', key_update self idx st = Ok self' ↔
     ∃ k ks, state_at self idx = Some (k, ks) ∧
             py_in st [PyBool true; PyBool false] = true ∧
             self' = mkKeyInterface (ki_impl self)
                       (<[k := with_pressed ks st]> (ki_state self))
                       (Some (idx, st)) (ki_script self)
                       (ki_script_position self)) ∧
  (∀ self', key_update self idx st = Ok self' →
     dom (ki_state self') = dom (ki_state self)) ∧
  (key_update self idx st = Raise KeyError ↔ state_at self idx = None) ∧
  (∀ q, Q_is_integer q = false → state_at self (Fin q) = None) ∧
  state_at self NaN = None ∧ state_at self PosInf = None ∧
  state_at self NegInf = None.
Proof.
  split; [ | split; [ | split; [ | split ] ] ].
  - intros self'. split; [ apply key_update_inv | ].
    intros (k & ks & Hat & Hin & ->). apply key_update_ok; assumption.
  - intros self' H. apply key_update_inv in H as (k & ks & Hat & _ & ->).
    simpl. apply dom_insert_lookup_L.
    unfold state_at in Hat. destruct (dict_key idx) as [k' | ]; [ | discriminate ].
    destruct (ki_state self !! k') eqn:E; [ | discriminate ].
    injection Hat as -> ->. eauto.
  - split; [ | apply key_update_missing ].
    destruct (state_at self idx) as [[k ks] | ] eqn:Hat; [ | reflexivity ].
    unfold key_update, state_at in *.
    destruct (dict_key idx) as [k' | ]; [ | discriminate ].
    destruct (ki_state self !! k') as [ks' | ]; [ | discriminate ].
    unfold KeyStateOps.set_pressed.
    destruct (py_in st [PyBool true; PyBool false]); discriminate.
  - intros q Hq. unfold state_at, dict_key. rewrite Hq. reflexivity.
  - repeat split.
Qed.

(** ** Polling the event sources *)

Section Polling.

Variable py_float : string → option pyfloat.
Variable time_time : nat → Q.

(** X13: the hardware mailbox has one slot.  After two transitions
    without a poll in between, the next [async_wait] returns the second
    one at once and empties the mailbox; the first is never returned, and
    the poll after that finds nothing and goes on waiting at 1/120 s.
    Both transitions are in the registry all the same. *)
Theorem mailbox_keeps_last_transition (depth depth' : nat)
    (self self1 self2 : KeyInterface) (i1 i2 : pyfloat) (s1 s2 : PyVal) :
  ki_impl self = KEYBOW →
  key_update self i1 s1 = Ok self1 →
  key_update self1 i2 s2 = Ok self2 →
  let w := async_wait py_float (S depth) self2 in
  w_outcome w = Returned (Some (i2, s2)) ∧
  w_slept w = [] ∧
  ki_last_press (w_self w) = None ∧
  ki_state (w_self w) = ki_state self2 ∧
  async_wait py_float (S depth') (w_self w)
    = mkWaited [Fin (1 # 120)] (w_self w) Polling.
Proof.
  intros Himpl H1 H2.
  apply key_update_inv in H1 as (k1 & ks1 & _ & _ & ->).
  apply key_update_inv in H2 as (k2 & ks2 & _ & _ & ->).
  simpl. rewrite Himpl. simpl. rewrite ?Himpl. repeat split.
Qed.

(** X14: a [down] or [up] line whose argument names a key of the registry
    returns the transition without sleeping, sets the pressed flag of
    that key to [True] or [False], fills the mailbox and moves the cursor
    by one; when the argument names no key, [KeyError] is raised and only
    the cursor has moved. *)
Theorem scripted_key_line (depth : nat) (self : KeyInterface)
    (cmd op arg : string) (a : pyfloat) (pressed : bool) :
  ki_impl self = SIMULATED →
  ki_script self !! ki_script_position self = Some cmd →
  py_split cmd = [op; arg] →
  py_float arg = Some a →
  op = (if pressed then "down" else "up")%string →
  (∀ k ks, state_at self a = Some (k, ks) →
     async_wait py_float (S depth) self =
       mkWaited []
         (mkKeyInterface SIMULATED
            (<[k := with_pressed ks (PyBool pressed)]> (ki_state self))
            (Some (a, PyBool pressed)) (ki_script self)
            (S (ki_script_position self)))
         (Returned (Some (a, PyBool pressed)))) ∧
  (state_at self a = None →
   async_wait py_float (S depth) self =
     mkWaited [] (with_position self (S (ki_script_position self)))
       (Raised KeyError)).
Proof.
  intros Himpl Hcmd Hsplit Hfloat Hop.
  assert (Hnot : (length (ki_script self) <=? ki_script_position self)%nat
                 = false).
  { apply Nat.leb_gt. eapply lookup_lt_Some, Hcmd. }
  split.
  - intros k ks Hat. simpl.
    rewrite Himpl, Hcmd, Hsplit, Hfloat, Hnot.
    assert (Hup : key_update
                    (with_position self (S (ki_script_position self))) a
                    (PyBool pressed)
                  = Ok (mkKeyInterface SIMULATED
                          (<[k := with_pressed ks (PyBool pressed)]>
                             (ki_state self))
                          (Some (a, PyBool pressed)) (ki_script self)
                          (S (ki_script_position self)))).
    { rewrite (key_update_ok _ a (PyBool pressed) k ks);
        [ simpl; rewrite Himpl; reflexivity | exact Hat
        | destruct pressed; reflexivity ]. }
    destruct pressed; subst op; simpl; rewrite Hup; reflexivity.
  - intros Hat. simpl.
    rewrite Himpl, Hcmd, Hsplit, Hfloat, Hnot.
    assert (Hup : ∀ st, key_update
                    (with_position self (S (ki_script_position self))) a st
                  = Raise KeyError)
      by (intros st; apply key_update_missing; exact Hat).
    destruct pressed; subst op; simpl; rewrite Hup; reflexivity.
Qed.

(** X15: whatever it does, [async_wait] keeps the implementation, the
    script and the set of registered keys, never changes a colour, never
    moves the cursor back, and moves it forward by at most one line per
    nested call. *)
Theorem async_wait_preserves (depth : nat) (self : KeyInterface) :
  let w := async_wait py_float depth self in
  ki_impl (w_self w) = ki_impl self ∧
  ki_script (w_self w) = ki_script self ∧
  dom (ki_state (w_self w)) = dom (ki_state self) ∧
  (∀ k ks', ki_state (w_self w) !! k = Some ks' →
     ∃ ks, ki_state self !! k = Some ks ∧ same_colour ks' ks) ∧
  (ki_script_position self ≤ ki_script_position (w_self w)
     ≤ ki_script_position self + depth)%nat.
Proof.
  assert (Hrefl : ∀ s : KeyInterface, ∀ n : nat,
    ki_impl s = ki_impl s ∧ ki_script s = ki_script s ∧
    dom (ki_state s) = dom (ki_state s) ∧
    (∀ k ks', ki_state s !! k = Some ks' →
       ∃ ks, ki_state s !! k = Some ks ∧ same_colour ks' ks) ∧
    (ki_script_position s ≤ ki_script_position s
       ≤ ki_script_position s + n)%nat).
  { intros s n. repeat split; try lia. intros k ks' ->.
    eexists; repeat split. }
  assert (Hmoved : ∀ s : KeyInterface, ∀ n : nat,
    ki_impl (with_position s (S (ki_script_position s))) = ki_impl s ∧
    ki_script (with_position s (S (ki_script_position s))) = ki_script s ∧
    dom (ki_state (with_position s (S (ki_script_position s))))
      = dom (ki_state s) ∧
    (∀ k ks', ki_state (with_position s (S (ki_script_position s))) !! k
              = Some ks' →
       ∃ ks, ki_state s !! k = Some ks ∧ same_colour ks' ks) ∧
    (ki_script_position s
       ≤ ki_script_position (with_position s (S (ki_script_position s)))
       ≤ ki_script_position s + S n)%nat).
  { intros s n. simpl. repeat split; try lia. intros k ks' ->.
    eexists; repeat split. }
  assert (Hkey : ∀ (s s2 : KeyInterface) (a : pyfloat) (st : PyVal) (n : nat),
    key_update (with_position s (S (ki_script_position s))) a st = Ok s2 →
    ki_impl s2 = ki_impl s ∧ ki_script s2 = ki_script s ∧
    dom (ki_state s2) = dom (ki_state s) ∧
    (∀ k ks', ki_state s2 !! k = Some ks' →
       ∃ ks, ki_state s !! k = Some ks ∧ same_colour ks' ks) ∧
    (ki_script_position s ≤ ki_script_position s2
       ≤ ki_script_position s + S n)%nat).
  { intros s s2 a st n H.
    apply key_update_inv in H as (k & ks & Hat & _ & ->). simpl.
    assert (Hks : ki_state s !! k = Some ks).
    { unfold state_at in Hat. simpl in Hat.
      destruct (dict_key a) as [k' | ]; [ | discriminate ].
      destruct (ki_state s !! k') eqn:E; [ | discriminate ].
      injection Hat as -> ->. exact E. }
    repeat split; try lia.
    - apply dom_insert_lookup_L. eauto.
    - intros j ks'. destruct (decide (j = k)) as [-> | Hne].
      + rewrite lookup_insert_eq. intros [= <-].
        exists ks. repeat split. exact Hks.
      + rewrite lookup_insert_ne by congruence. intros ->.
        eexists; repeat split. }
  revert self. induction depth as [ | depth IH]; intros self;
    [ apply Hrefl | ].
  cbv zeta. simpl async_wait.
  destruct (ki_impl self) eqn:Himpl.
  - destruct (ki_last_press self) as [last | ]; simpl;
      [ | rewrite <- Himpl; apply Hrefl ].
    split; [ exact Himpl | ].
    split; [ reflexivity | split; [ reflexivity | split; [ | lia ] ] ].
    intros j ks' ->. eexists; repeat split.
  - rewrite <- Himpl.
    destruct (ki_script self !! ki_script_position self) as [cmd | ];
      [ | apply Hrefl ].
    destruct (py_split cmd) as [ | op [ | arg [ | c l]]]; try apply Hmoved.
    destruct (py_float arg) as [a | ]; [ | apply Hmoved ].
    destruct (String.eqb op "sleep").
    { destruct (asyncio_sleep a); try apply Hmoved.
      simpl w_self.
      specialize (IH (with_position self (S (ki_script_position self)))).
      cbv zeta in IH. destruct IH as (I1 & I2 & I3 & I4 & I5).
      simpl in I1, I2, I3, I4, I5.
      repeat split; try assumption; try lia. }
    destruct (String.eqb op "down").
    { destruct (key_update _ a (PyBool true)) eqn:E;
        [ eapply Hkey, E | apply Hmoved ]. }
    destruct (String.eqb op "up"); [ | apply Hmoved ].
    destruct (key_update _ a (PyBool false)) eqn:E;
      [ eapply Hkey, E | apply Hmoved ].
  - rewrite <- Himpl. apply Hrefl.
Qed.

(** X16: an interface of the [DUMMY] implementation makes [async_wait]
    return [None] at once, on which the producer fails with [TypeError]
    in its first turn: nothing is recorded and nothing is put on the
    queue. *)
Theorem dummy_interface_stops_producer (depth turns : nat) (p : Producer) :
  ki_impl (l_ki (p_listener p)) = DUMMY →
  async_wait py_float (S depth) (l_ki (p_listener p))
    = mkWaited [] (l_ki (p_listener p)) (Returned None) ∧
  (produce py_float time_time (S depth) (S turns) p).2 = Stopped TypeError ∧
  p_queue (produce py_float time_time (S depth) (S turns) p).1 = p_queue p ∧
  l_tl (p_listener (produce py_float time_time (S depth) (S turns) p).1)
    = l_tl (p_listener p).
Proof.
  intros Himpl.
  assert (Hw : async_wait py_float (S depth) (l_ki (p_listener p))
               = mkWaited [] (l_ki (p_listener p)) (Returned None)).
  { simpl. rewrite Himpl. reflexivity. }
  split; [ exact Hw | ].
  assert (Hrun : produce py_float time_time (S depth) (S turns) p
                 = (set_interface p (l_ki (p_listener p)), Stopped TypeError)).
  { simpl. rewrite Himpl. reflexivity. }
  rewrite Hrun. repeat split.
Qed.

End Polling.

(** ** What the producer publishes *)

Lemma key_history_entries (tl : Timeline) (key : pyfloat)
    (x : option TimelineEntry) :
  In x (key_history tl key) → ∃ e, x = Some e.
Proof.
  unfold key_history. rewrite filter_In. intros [_ Hx].
  destruct x as [e | ]; [ eauto | discriminate ].
Qed.

Section Published.

Variable py_float : string → option pyfloat.
Variable time_time : nat → Q.

(** A turn that completes records the transition and publishes an item
    that fits it. *)
Lemma produce_step_inv (lf : list KeySequence) (tl tl' : Timeline)
    (n n' : nat) (kp : keypress) (res : Published) :
  produce_step time_time lf tl n (Some kp) = Ok (res, tl', n') →
  ∃ t, tl' = tl_appendleft (t, kp) tl ∧ explains lf (t, kp) res ∧
       (n ≤ n')%nat.
Proof.
  unfold produce_step, explains, entry_pressed, entry_key. simpl.
  destruct (py_truthy kp.2) eqn:Hv; simpl.
  - intros [= <- <- <-]. eexists.
    split; [ reflexivity | split; [ first [ exact Hv | reflexivity ] | lia ] ].
  - destruct (key_history tl kp.1) as [ | [e | ] rest] eqn:Hh; simpl;
      [ discriminate | | ].
    + unfold classify.
      destruct (Qltb 500 (press_duration (time_time n) e)
                && listens_for lf HOLD) eqn:Hc;
        destruct (int_of_float kp.1) as [z | err]; simpl;
        try discriminate; intros [= <- <- <-]; eexists;
        (split; [ reflexivity | split; [ | lia ] ]);
        (split; [ first [ exact Hv | reflexivity ] | split; [ reflexivity | ] ]).
      * right. split; [ reflexivity | ].
        now apply andb_prop in Hc as [_ ->].
      * left. reflexivity.
    + exfalso. destruct (key_history_entries tl kp.1 None) as [e He];
        [ rewrite Hh; left; reflexivity | discriminate ].
Qed.

Lemma produce_trace (depth turns : nat) (p : Producer) :
  ∃ es items,
    p_queue (produce py_float time_time depth turns p).1
      = p_queue p ++ items ∧
    l_tl (p_listener (produce py_float time_time depth turns p).1)
      = pushes es (l_tl (p_listener p)) ∧
    Forall2 (explains (l_listen_for (p_listener p))) es items ∧
    (length es ≤ turns)%nat ∧
    l_listen_for (p_listener (produce py_float time_time depth turns p).1)
      = l_listen_for (p_listener p) ∧
    (p_reads p ≤ p_reads (produce py_float time_time depth turns p).1)%nat.
Proof.
  revert p. induction turns as [ | turns IH]; intros p.
  - exists [], []. simpl. rewrite app_nil_r. repeat split; try lia. constructor.
  - assert (Hstop : ∀ q st,
      produce py_float time_time depth (S turns) p
        = (set_interface p q, st) →
      ∃ es items,
        p_queue (produce py_float time_time depth (S turns) p).1
          = p_queue p ++ items ∧
        l_tl (p_listener (produce py_float time_time depth (S turns) p).1)
          = pushes es (l_tl (p_listener p)) ∧
        Forall2 (explains (l_listen_for (p_listener p))) es items ∧
        (length es ≤ S turns)%nat ∧
        l_listen_for
          (p_listener (produce py_float time_time depth (S turns) p).1)
          = l_listen_for (p_listener p) ∧
        (p_reads p
           ≤ p_reads (produce py_float time_time depth (S turns) p).1)%nat).
    { intros q st ->. exists [], []. simpl. rewrite app_nil_r.
      repeat split; try lia. constructor. }
    simpl produce in *.
    destruct (w_outcome (async_wait py_float depth (l_ki (p_listener p))))
      as [keypress | e | | ]; try (eapply Hstop; reflexivity).
    simpl l_listen_for in *. simpl l_tl in *. simpl p_reads in *.
    destruct (produce_step time_time (l_listen_for (p_listener p))
                (l_tl (p_listener p)) (p_reads p) keypress)
      as [[[res tl'] reads'] | e] eqn:Hstep;
      [ | eapply Hstop; reflexivity ].
    destruct keypress as [kp | ]; [ | discriminate Hstep ].
    apply produce_step_inv in Hstep as (t & -> & Hfit & Hreads).
    clear Hstop.
    match goal with
    | |- context [produce _ _ _ _ ?q] =>
        destruct (IH q) as (es & items & Hq & Htl & Hall & Hlen & Hlf & Hr)
    end.
    simpl in Hq, Htl, Hall, Hlf, Hr.
    exists ((t, kp) :: es), (res :: items).
    rewrite Hq, Htl, Hlf, <- app_assoc. simpl.
    repeat split; try lia. constructor; assumption.
Qed.

(** X17: the producer publishes in step with what it records: after any
    number of turns the queue is the old queue followed by one item per
    transition pushed on the timeline, in the same order, at most one per
    turn; the empty marker stands for a press, a classification for a
    release of the key it names; [listen_for] is never changed. *)
Theorem produce_one_item_per_transition (depth turns : nat) (p : Producer) :
  ∃ es items,
    p_queue (produce py_float time_time depth turns p).1
      = p_queue p ++ items ∧
    l_tl (p_listener (produce py_float time_time depth turns p).1)
      = pushes es (l_tl (p_listener p)) ∧
    length items = length es ∧
    (length es ≤ turns)%nat ∧
    Forall2 (explains (l_listen_for (p_listener p))) es items ∧
    l_listen_for (p_listener (produce py_float time_time depth turns p).1)
      = l_listen_for (p_listener p).
Proof.
  destruct (produce_trace depth turns p)
    as (es & items & Hq & Htl & Hall & Hlen & Hlf & _).
  exists es, items. repeat split; try assumption.
  symmetry. eapply Forall2_length, Hall.
Qed.

(** X18: the producer never publishes [DOUBLE], and publishes [HOLD] only
    when [HOLD] is listened for: every item it adds to the queue is the
    empty marker, a [SINGLE], or a [HOLD] with [HOLD] in [listen_for]. *)
Theorem produce_never_publishes_double (depth turns : nat) (p : Producer) :
  ∃ items,
    p_queue (produce py_float time_time depth turns p).1
      = p_queue p ++ items ∧
    Forall (fun item =>
              item = NoSequence ∨
              (∃ z, item = Sequence z SINGLE) ∨
              (∃ z, item = Sequence z HOLD ∧
                    listens_for (l_listen_for (p_listener p)) HOLD = true))
      items ∧
    Forall (fun item => ∀ z, item ≠ Sequence z DOUBLE) items.
Proof.
  destruct (produce_trace depth turns p)
    as (es & items & Hq & _ & Hall & _).
  exists items. split; [ exact Hq | ].
  clear Hq. induction Hall as [ | e item es items Hfit _ [IH1 IH2]];
    [ split; constructor | ].
  split; constructor; try assumption.
  - destruct item as [ | z seq]; [ left; reflexivity | right ].
    destruct Hfit as (_ & _ & [-> | [-> Hl]]); [ left | right ]; eauto.
  - intros z. destruct item as [ | z' seq]; [ discriminate | ].
    destruct Hfit as (_ & _ & [-> | [-> _]]); discriminate.
Qed.

End Published.

(** ** Presses, releases and the bound of the timeline *)

Lemma most_recent_entry_skip (pre rest : Timeline) (key : pyfloat) :
  Forall (fun kp => entry_matches key kp = false) pre →
  most_recent_entry (pre ++ rest) key = most_recent_entry rest key.
Proof.
  induction 1 as [ | kp pre Hkp _ IH]; simpl; [ reflexivity | ].
  rewrite Hkp. exact IH.
Qed.

Lemma most_recent_entry_none (tl : Timeline) (key : pyfloat) :
  Forall (fun kp => entry_matches key kp = false) tl →
  most_recent_entry tl key = None.
Proof.
  intros H. rewrite <- (app_nil_r tl), most_recent_entry_skip by exact H.
  reflexivity.
Qed.

Lemma pyfloat_eqb_Fin_refl (q : Q) : pyfloat_eqb (Fin q) (Fin q) = true.
Proof. simpl. apply Qeq_bool_iff. reflexivity. Qed.

Section PressRelease.

Variable time_time : nat → Q.

(** X19: a press followed at once by the release of the same key is
    classified from the time between the two turns: the press publishes
    the empty marker and is recorded with the clock reading of its turn,
    and the release is measured from that reading, whatever the timeline
    held before. *)
Theorem press_then_release (lf : list KeySequence) (tl : Timeline) (n : nat)
    (q : Q) (vp vr : PyVal) :
  py_truthy vp = true →
  py_truthy vr = false →
  let tl1 := tl_appendleft (time_time n, (Fin q, vp)) tl in
  produce_step time_time lf tl n (Some (Fin q, vp))
    = Ok (NoSequence, tl1, S n) ∧
  produce_step time_time lf tl1 (S n) (Some (Fin q, vr)) =
    (res ← classify lf (Fin q)
             (((time_time (S n) - time_time n) * 1000)%Q);
     Ok (res, tl_appendleft (time_time (S (S n)), (Fin q, vr)) tl1,
         S (S (S n)))).
Proof.
  intros Hp Hr. split.
  - apply produce_step_press. exact Hp.
  - apply (produce_step_release time_time lf _ (S n) (Fin q) vr
             (time_time n, (Fin q, vp)) Hr).
    unfold tl_appendleft, deque_appendleft, tl_maxlen. simpl.
    unfold entry_key. simpl.
    rewrite (proj2 (Qeq_bool_iff q q) (Qeq_refl q)). reflexivity.
Qed.

(** X20: the timeline remembers a press through at most 49 later
    transitions of other keys.  On a listener that starts empty, a
    release that comes after fewer than 50 of them still finds the press;
    after 50 or more the press has been evicted and the release raises
    [IndexError]. *)
Theorem timeline_forgets_press (lf : list KeySequence) (n : nat) (q t : Q)
    (vp vr : PyVal) (es : list TimelineEntry) :
  py_truthy vr = false →
  Forall (fun e => pyfloat_eqb (entry_key e) (Fin q) = false) es →
  let tl := pushes ((t, (Fin q, vp)) :: es) tl_init in
  ((length es < 50)%nat →
   most_recent_entry tl (Fin q) = Some (t, (Fin q, vp))) ∧
  ((50 ≤ length es)%nat →
   produce_step time_time lf tl n (Some (Fin q, vr)) = Raise IndexError).
Proof.
  intros Hr Hes tl.
  assert (Htl : tl = take 50 (map Some (rev es)
                              ++ Some (t, (Fin q, vp)) :: tl_init)).
  { unfold tl. rewrite pushes_take
      by (unfold tl_init; rewrite length_replicate; reflexivity).
    simpl rev. rewrite map_app, <- app_assoc. reflexivity. }
  assert (Hother : Forall (fun kp => entry_matches (Fin q) kp = false)
                     (map Some (rev es))).
  { apply Forall_map, Forall_rev. exact Hes. }
  split; intros Hlen.
  - rewrite Htl, take_app, most_recent_entry_skip
      by (apply Forall_take; exact Hother).
    rewrite length_map, length_rev.
    destruct (50 - length es)%nat as [ | m] eqn:Hm; [ lia | ].
    simpl. unfold entry_key. simpl.
    rewrite (proj2 (Qeq_bool_iff q q) (Qeq_refl q)). reflexivity.
  - assert (Hnone : most_recent_entry tl (Fin q) = None).
    { rewrite Htl, take_app_le by (rewrite length_map, length_rev; lia).
      apply most_recent_entry_none, Forall_take. exact Hother. }
    unfold produce_step. simpl. rewrite Hr. simpl.
    pose proof (key_history_most_recent tl (Fin q)) as Hh.
    rewrite Hnone in Hh. rewrite Hh. reflexivity.
Qed.

End PressRelease.

(** ** Instances of the further properties *)

Lemma from_hexcode_six_digits_witness :
  from_hexcode "Ff00Aa-rest" = Ok (255, 0, 170).
Proof.
  exact (proj1 (from_hexcode_six_digits "F" "f" "0" "0" "A" "a"
                  15 15 0 0 10 10 "-rest"
                  eq_refl eq_refl eq_refl eq_refl eq_refl eq_refl)).
Defined.

Lemma from_hexcode_colourcode_witness :
  from_hexcode (KeyStateOps.colourcode (mkKeyState (PyBool false) 255 0 16))
    = Ok (255, 0, 16).
Proof.
  apply (from_hexcode_colourcode (mkKeyState (PyBool false) 255 0 16));
    simpl; lia.
Defined.

Lemma set_led_registered_witness :
  ∃ w', set_led (board (example_interface [])) (Fin 1)
          (PyInt 300) (PyFloat (Fin 2.7)) (PyBool true) = Done w' ∧
        ki_state (bd_ki w') !! 1 = Some (mkKeyState (PyBool false) 300 2 1) ∧
        bd_calls w' = [].
Proof.
  destruct (set_led_registered (board (example_interface [])) (Fin 1)
              (PyInt 300) (PyFloat (Fin 2.7)) (PyBool true) 1 KeyState_init
              300 2 1 eq_refl eq_refl eq_refl eq_refl)
    as (w' & Hrun & Hkey & _ & Hcalls).
  exists w'. split; [ exact Hrun | split; [ exact Hkey | exact Hcalls ] ].
Defined.

Lemma led_on_colourcode_witness :
  ∃ w', led_on (board (example_interface [])) (Fin 2) "ff0010" = Done w' ∧
        (KeyStateOps.colourcode <$> ki_state (bd_ki w') !! 2)
          = Some "ff0010"%string.
Proof.
  destruct (led_on_colourcode (board (example_interface [])) (Fin 2) 2
              KeyState_init (mkKeyState (PyBool false) 255 0 16) eq_refl
              ltac:(simpl; lia) ltac:(simpl; lia) ltac:(simpl; lia))
    as [(w' & Hrun & _ & Hcode & _) _].
  exists w'. split; [ exact Hrun | exact Hcode ].
Defined.

Lemma mailbox_keeps_last_transition_witness :
  let self := setup (KeyInterface_init KEYBOW) 3 [] in
  let self1 := mkKeyInterface KEYBOW
                 (<[0 := with_pressed KeyState_init (PyBool true)]>
                    (ki_state self))
                 (Some (Fin 0, PyBool true)) [] 0 in
  let self2 := mkKeyInterface KEYBOW
                 (<[2 := with_pressed KeyState_init (PyBool true)]>
                    (ki_state self1))
                 (Some (Fin 2, PyBool true)) [] 0 in
  key_update self (Fin 0) (PyBool true) = Ok self1 ∧
  key_update self1 (Fin 2) (PyBool true) = Ok self2 ∧
  w_outcome (async_wait float_of_string 1 self2)
    = Returned (Some (Fin 2, PyBool true)) ∧
  w_outcome (async_wait float_of_string 1
               (w_self (async_wait float_of_string 1 self2))) = Polling.
Proof.
  intros self self1 self2.
  assert (E1 : key_update self (Fin 0) (PyBool true) = Ok self1)
    by (apply (key_update_ok self (Fin 0) (PyBool true) 0 KeyState_init);
        reflexivity).
  assert (E2 : key_update self1 (Fin 2) (PyBool true) = Ok self2)
    by (apply (key_update_ok self1 (Fin 2) (PyBool true) 2 KeyState_init);
        reflexivity).
  destruct (mailbox_keeps_last_transition float_of_string 0 0 self self1 self2
              (Fin 0) (Fin 2) (PyBool true) (PyBool true) eq_refl E1 E2)
    as (Hout & _ & _ & _ & Hnext).
  split; [ exact E1 | split; [ exact E2 | split; [ exact Hout | ] ] ].
  rewrite Hnext. reflexivity.
Defined.

Lemma scripted_key_line_witness :
  let self := example_interface ["down 1"]%string in
  w_outcome (async_wait float_of_string 1 self)
    = Returned (Some (Fin 1, PyBool true)) ∧
  (KeyStateOps.pressed <$>
     ki_state (w_self (async_wait float_of_string 1 self)) !! 1)
    = Some (PyBool true).
Proof.
  intros self.
  destruct (scripted_key_line float_of_string 0 self "down 1" "down" "1"
              (Fin 1) true eq_refl eq_refl eq_refl eq_refl eq_refl)
    as [Hkey _].
  rewrite (Hkey 1 KeyState_init eq_refl). split; reflexivity.
Defined.

Lemma dummy_interface_stops_producer_witness :
  let p := start (setup (KeyInterface_init DUMMY) 3 []) [SINGLE] in
  (produce float_of_string (readings []) 1 1 p).2 = Stopped TypeError ∧
  p_queue (produce float_of_string (readings []) 1 1 p).1 = [].
Proof.
  intros p.
  destruct (dummy_interface_stops_producer float_of_string (readings []) 0 0 p
              eq_refl) as (_ & Hstop & Hq & _).
  split; [ exact Hstop | exact Hq ].
Defined.

Lemma press_then_release_witness :
  let clock := readings [0; 0.6; 0.6]%Q in
  published_of
    (produce_step clock [SINGLE; HOLD]
       (tl_appendleft (0%Q, (Fin 1, PyBool true)) tl_init) 1
       (Some (Fin 1, PyBool false)))
    = Ok (Sequence 1 HOLD).
Proof.
  intros clock.
  destruct (press_then_release clock [SINGLE; HOLD] tl_init 0 1
              (PyBool true) (PyBool false) eq_refl eq_refl) as [_ Hrel].
  change (clock 0%nat) with 0%Q in Hrel.
  rewrite Hrel. reflexivity.
Defined.

Lemma timeline_forgets_press_witness :
  let others := map (fun i : nat => (inject_Z (Z.of_nat i), (Fin 2, PyBool true)))
                  (seq 1 50) in
  produce_step (readings []) [SINGLE]
    (pushes ((0%Q, (Fin 1, PyBool true)) :: others) tl_init) 0
    (Some (Fin 1, PyBool false))
    = Raise IndexError.
Proof.
  intros others.
  apply (timeline_forgets_press (readings []) [SINGLE] 0 1 0 (PyBool true)
           (PyBool false) others eq_refl).
  - unfold others. apply Forall_map, Forall_forall. intros i _. reflexivity.
  - unfold others. rewrite length_map, length_seq. apply le_n.
Defined.
